(** * agl-video-utils: the frame extractor and the video converter

    A shallow embedding of [extractor.py] (class [FrameExtractor]) and
    [converter.py] (class [VideoConverter]).  Python values that cross the
    library boundary are modelled as data: paths as [pathlib] parses them,
    the decoded ffprobe document as a JSON tree, the file store as a finite
    map, and every call into cv2, tqdm, ffmpeg and [print] as an event of a
    trace.  Exceptions are explicit results. *)

From Stdlib Require Import ZArith Ascii String List Lia Bool.
From stdpp Require Import base tactics option list strings pretty countable gmap.

Local Open Scope string_scope.
Local Open Scope Z_scope.

(** ** Python exceptions and results *)

Inductive exn : Type :=
| KeyError (key : string)
| KeyErrorInt (key : Z)
| IndexError
| TypeError
| ValueError
| AssertionError (msg : string)
| ZeroDivisionError
| FileExistsError
| NotADirectoryError
| OSError (errno : string)            (* any other error of the system *)
| AttributeError
| UnicodeDecodeError
| FfmpegError (stderr : option string).
(* [ffmpeg.Error]: [stderr] is the bytes the process wrote to a captured
   stderr, [None] when stderr was not captured. *)

Inductive result (A : Type) : Type :=
| Ok (a : A)
| Raise (e : exn).
Arguments Ok {A} a.
Arguments Raise {A} e.

Definition is_ok {A} (r : result A) : bool :=
  match r with Ok _ => true | Raise _ => false end.

(** Pure code that may raise. *)
Definition rbind {A B} (r : result A) (k : A -> result B) : result B :=
  match r with
  | Ok a => k a
  | Raise e => Raise e
  end.

Notation "'let?' x := r 'in' k" := (rbind r (fun x => k))
  (at level 10, x pattern, r at level 100, k at level 200).

(** Code with effects: a state [W] is threaded through, and an exception
    keeps the state reached when it was raised. *)
Definition M (W A : Type) : Type := W -> W * result A.

Definition ret {W A} (a : A) : M W A := fun w => (w, Ok a).
Definition raise {W A} (e : exn) : M W A := fun w => (w, Raise e).
Definition lift {W A} (r : result A) : M W A := fun w => (w, r).
Definition bind {W A B} (m : M W A) (k : A -> M W B) : M W B :=
  fun w => match m w with
           | (w', Ok a) => k a w'
           | (w', Raise e) => (w', Raise e)
           end.

Notation "x <- m ;; k" := (bind m (fun x => k))
  (at level 100, m at next level, right associativity).
Notation "m ;;; k" := (bind m (fun _ => k))
  (at level 100, right associativity).

(** ** Python values

    The values [json.loads] builds and the methods hand around: [None],
    booleans, ints, strings, lists, and dicts as their items in insertion
    order (keys are strings and occur once).  ffprobe writes bare numbers
    only for integer fields, so floats do not occur. *)
Local Unset Elimination Schemes.
Inductive pyval : Type :=
| PyNone
| PyBool (b : bool)
| PyInt (n : Z)
| PyStr (s : string)
| PyList (l : list pyval)
| PyDict (items : list (string * pyval)).
Local Set Elimination Schemes.

(** ** Python [str] helpers *)

Fixpoint str_take (n : nat) (s : string) : string :=
  match n, s with
  | S n', String a s' => String a (str_take n' s')
  | _, _ => ""
  end.

Fixpoint str_drop (n : nat) (s : string) : string :=
  match n, s with
  | S n', String _ s' => str_drop n' s'
  | _, _ => s
  end.

(** [s.rfind(c)]: index of the last occurrence, [None] for Python's -1. *)
Fixpoint rfind (c : ascii) (s : string) : option nat :=
  match s with
  | "" => None
  | String a s' =>
      match rfind c s' with
      | Some i => Some (S i)
      | None => if Ascii.eqb a c then Some 0%nat else None
      end
  end.

(** [c in s] for a one-character [c]. *)
Fixpoint has_char (c : ascii) (s : string) : bool :=
  match s with
  | "" => false
  | String a s' => Ascii.eqb a c || has_char c s'
  end.

(** [t in s] for strings: [t] occurs as a contiguous slice of [s]. *)
Fixpoint str_contains (t s : string) : bool :=
  String.prefix t s ||
  match s with
  | "" => false
  | String _ s' => str_contains t s'
  end.

(** [s.split(c)]. *)
Fixpoint split_on (c : ascii) (s : string) : list string :=
  match s with
  | "" => [""]
  | String a s' =>
      if Ascii.eqb a c then "" :: split_on c s'
      else match split_on c s' with
           | [] => [String a ""]
           | w :: ws => String a w :: ws
           end
  end.

Definition byte_in (lo hi : N) (c : ascii) : bool :=
  (lo <=? N_of_ascii c)%N && (N_of_ascii c <=? hi)%N.

(** Whether [b.decode()] accepts the bytes: they are well-formed UTF-8.  The
    text is kept here in its UTF-8 encoding. *)
Fixpoint utf8_valid (s : string) : bool :=
  match s with
  | "" => true
  | String b0 s1 =>
      if byte_in 0 127 b0 then utf8_valid s1
      else
        match s1 with
        | "" => false
        | String b1 s2 =>
            if byte_in 194 223 b0 && byte_in 128 191 b1 then utf8_valid s2
            else
              match s2 with
              | "" => false
              | String b2 s3 =>
                  if ((byte_in 224 224 b0 && byte_in 160 191 b1)
                      || (byte_in 225 236 b0 && byte_in 128 191 b1)
                      || (byte_in 237 237 b0 && byte_in 128 159 b1)
                      || (byte_in 238 239 b0 && byte_in 128 191 b1))
                     && byte_in 128 191 b2
                  then utf8_valid s3
                  else
                    match s3 with
                    | "" => false
                    | String b3 s4 =>
                        if ((byte_in 240 240 b0 && byte_in 144 191 b1)
                            || (byte_in 241 243 b0 && byte_in 128 191 b1)
                            || (byte_in 244 244 b0 && byte_in 128 143 b1))
                           && byte_in 128 191 b2 && byte_in 128 191 b3
                        then utf8_valid s4
                        else false
                    end
              end
        end
  end.

(** [e.stderr.decode()]: [None] has no [decode]; bytes that are not UTF-8
    make it raise. *)
Definition decode_stderr (stderr : option string) : result string :=
  match stderr with
  | None => Raise AttributeError
  | Some bytes => if utf8_valid bytes then Ok bytes else Raise UnicodeDecodeError
  end.

(** [sep.join(l)]. *)
Fixpoint join (sep : string) (l : list string) : string :=
  match l with
  | [] => ""
  | [x] => x
  | x :: xs => x ++ sep ++ join sep xs
  end.

(** ** [pathlib.PurePosixPath]

    Paths as CPython's pathlib (3.8 to 3.13) parses and edits them on a
    POSIX system. *)

Module pathlib.

Record Path : Type := mkPath {
  root : string;           (* "", "/" or "//" *)
  parts : list string      (* the components after the root *)
}.

Global Instance Path_eq_dec : EqDecision Path.
Proof. solve_decision. Defined.

Global Instance Path_countable : Countable Path.
Proof.
  refine (inj_countable' (fun p => (root p, parts p))
                         (fun '(r, ps) => mkPath r ps) _).
  by intros [].
Defined.

(** [Path(s)]: the root is "//" for exactly two leading slashes, "/" for any
    other number of them; empty and "." components are dropped. *)
Definition parse_root (s : string) : string :=
  match s with
  | String "/" (String "/" (String "/" _)) => "/"
  | String "/" (String "/" _) => "//"
  | String "/" _ => "/"
  | _ => ""
  end.

Definition keep_part (x : string) : bool :=
  negb (String.eqb x "") && negb (String.eqb x ".").

Definition Path_of_str (s : string) : Path :=
  mkPath (parse_root s) (filter (fun x => Is_true (keep_part x)) (split_on "/" s)).

(** [str(p)]. *)
Definition str (p : Path) : string :=
  match root p, parts p with
  | "", [] => "."
  | r, ps => r ++ join "/" ps
  end.

(** [p.name]: the last component, empty when there is none. *)
Definition name (p : Path) : string := List.last (parts p) "".

(** [p.parent] keeps the path itself when there is nothing to drop. *)
Definition parent (p : Path) : Path := mkPath (root p) (removelast (parts p)).

(** [p / child] for a single relative component. *)
Definition joinpath (p : Path) (child : string) : Path :=
  mkPath (root p) (parts p ++ [child])%list.

(** The position of the dot that starts the suffix: [0 < i < len(name) - 1]. *)
Definition suffix_index (nm : string) : option nat :=
  match rfind "." nm with
  | Some i =>
      if (0 <? i)%nat && (i <? String.length nm - 1)%nat then Some i else None
  | None => None
  end.

Definition name_suffix (nm : string) : string :=
  match suffix_index nm with
  | Some i => str_drop i nm
  | None => ""
  end.

Definition name_stem (nm : string) : string :=
  match suffix_index nm with
  | Some i => str_take i nm
  | None => nm
  end.

Definition suffix (p : Path) : string := name_suffix (name p).
Definition stem (p : Path) : string := name_stem (name p).

(** [p.with_suffix(suffix)]. *)
Definition with_suffix (p : Path) (sfx : string) : result Path :=
  if has_char "/" sfx then Raise ValueError
  else if (negb (String.eqb sfx "") && negb (String.prefix "." sfx))
          || String.eqb sfx "." then Raise ValueError
  else
    let nm := name p in
    if String.eqb nm "" then Raise ValueError
    else
      let old_suffix := suffix p in
      let nm' :=
        if String.eqb old_suffix "" then nm ++ sfx
        else str_take (String.length nm - String.length old_suffix) nm ++ sfx in
      Ok (mkPath (root p) (removelast (parts p) ++ [nm'])%list).

End pathlib.

(** Python's [a // b] and [a % b] on ints: floor division, the remainder
    takes the sign of the divisor, and a zero divisor raises. *)
Definition floordiv (a b : Z) : result Z :=
  if b =? 0 then Raise ZeroDivisionError else Ok (a / b).

Definition pymod (a b : Z) : result Z :=
  if b =? 0 then Raise ZeroDivisionError else Ok (a mod b).

(** ** extractor.py *)

Module extractor.
Import pathlib.

(** A decoded frame, as the bytes of its pixel array. *)
Definition frame : Type := list Byte.byte.

(** What [cv2.VideoCapture(path)] gives for a file: whether it could be
    opened, the two properties the method queries ([CAP_PROP_FPS] as the
    text an f-string renders for the float, [CAP_PROP_FRAME_COUNT] after
    [int(...)]), and the frames [read()] delivers before its first failed
    read. *)
Record VideoCapture : Type := mkCapture {
  cap_opened : bool;
  cap_fps : string;
  cap_frame_count : Z;
  cap_frames : list frame
}.

(** What stands at a path: a directory, a file, or nothing that could be
    made there because the system refuses it (no permission, a name that is
    too long, ...) with the error given. *)
Inductive node : Type :=
| Dir
| File (img : frame)
| Refused (e : exn).

Inductive event : Type :=
| EvOpen (file : string)                 (* cv2.VideoCapture(file) *)
| EvRelease                              (* video.release() *)
| EvMkdir (dir : string)                 (* frame_dir.mkdir(...) *)
| EvImwrite (file : string) (img : frame)  (* cv2.imwrite(file, frame) *)
| EvPbar (total : Z)                     (* tqdm(total=...) *)
| EvPbarUpdate (n : Z)                   (* pbar.update(n) *)
| EvPbarClose.                           (* pbar.close() *)

(** The surroundings of a call: the decoder's view of every file, whether
    the image encoder manages to write a given image to a given file, the
    file store keyed by path text, and the calls made so far, oldest first. *)
Record world : Type := mkWorld {
  w_video : string -> VideoCapture;
  w_write : string -> frame -> bool;
  w_fs : gmap string node;
  w_trace : list event
}.

Definition log (e : event) : M world unit :=
  fun w => (mkWorld (w_video w) (w_write w) (w_fs w) (w_trace w ++ [e]), Ok tt).

Definition set_fs (f : gmap string node -> gmap string node) : M world unit :=
  fun w => (mkWorld (w_video w) (w_write w) (f (w_fs w)) (w_trace w), Ok tt).

Definition VideoCapture_open (file : string) : M world VideoCapture :=
  log (EvOpen file);;;
  fun w => (w, Ok (w_video w file)).

Definition release : M world unit := log EvRelease.

(** [os.mkdir] along the path, ancestors first (parents=True, exist_ok=True):
    an existing directory is kept, an existing file makes the call raise,
    and so does a refusal of the system, with its own error. *)
Fixpoint prefixes_from (acc ps : list string) : list (list string) :=
  match ps with
  | [] => []
  | x :: xs => (acc ++ [x])%list :: prefixes_from (acc ++ [x])%list xs
  end.

Fixpoint mkdir_each (r : string) (dirs : list (list string)) : M world unit :=
  match dirs with
  | [] => ret tt
  | d :: rest =>
      fun w =>
        match w_fs w !! str (mkPath r d) with
        | Some Dir => mkdir_each r rest w
        | Some (File _) =>
            (w, Raise (match rest with
                       | [] => FileExistsError
                       | _ => NotADirectoryError
                       end))
        | Some (Refused e) => (w, Raise e)
        | None => (set_fs (insert (str (mkPath r d)) Dir);;; mkdir_each r rest) w
        end
  end.

Definition mkdir (p : Path) : M world unit :=
  log (EvMkdir (str p));;;
  mkdir_each (root p) (prefixes_from [] (parts p)).

(** Whether [cv2.imwrite] gets the image into the file: the encoder must
    manage, and no directory or refusal may stand at the path. *)
Definition can_write (ok : string -> frame -> bool) (fs : gmap string node)
    (file : string) (img : frame) : bool :=
  ok file img &&
  match fs !! file with
  | Some Dir | Some (Refused _) => false
  | _ => true
  end.

(** [cv2.imwrite]: it returns [True] with the image stored, or [False] with
    nothing done; it does not raise. *)
Definition imwrite (file : string) (img : frame) : M world bool :=
  log (EvImwrite file img);;;
  fun w =>
    if can_write (w_write w) (w_fs w) file img
    then (set_fs (insert file (File img));;; ret true) w
    else (w, Ok false).

Record FrameExtractor : Type := mkFrameExtractor {
  video_path : Path
}.

(** [FrameExtractor.__init__] *)
Definition FrameExtractor_init (video_path : Path) : M world FrameExtractor :=
  if String.eqb (suffix video_path) ".mp4"
  then ret (mkFrameExtractor video_path)
  else raise (AssertionError "Video file must be a .mp4 file").

(** The local variables of [extract_frames] when its body ends. *)
Record locals : Type := mkLocals {
  total_frames : Z;
  num_frames_to_extract : Z;
  frame_dir : Path;
  frame_count : Z;
  extracted_count : Z
}.

(** The [while video.isOpened()] loop over an open source: each iteration
    reads once; the read that finds no frame left breaks the loop. *)
Fixpoint read_loop (frame_interval : Z) (frame_dir : Path)
    (frames : list frame) (frame_count extracted_count : Z) : M world (Z * Z) :=
  match frames with
  | [] => ret (frame_count, extracted_count)
  | frame :: rest =>
      r <- lift (pymod frame_count frame_interval);;
      if r =? 0 then
        let frame_file := joinpath frame_dir (pretty frame_count ++ ".jpeg") in
        imwrite (str frame_file) frame;;;      (* the flag is dropped *)
        log (EvPbarUpdate 1);;;
        read_loop frame_interval frame_dir rest (frame_count + 1) (extracted_count + 1)
      else
        read_loop frame_interval frame_dir rest (frame_count + 1) extracted_count
  end.

Definition extract_frames_body (self : FrameExtractor) (frame_interval : Z)
  : M world locals :=
  video <- VideoCapture_open (str (video_path self));;
  let fps := cap_fps video in
  let total_frames := cap_frame_count video in
  num_frames_to_extract <- lift (floordiv total_frames frame_interval);;
  let filename := stem (video_path self) in
  let frame_dir := Path_of_str ("frames_" ++ filename ++ "_" ++ fps) in
  mkdir frame_dir;;;
  log (EvPbar num_frames_to_extract);;;
  counts <- (if cap_opened video
             then read_loop frame_interval frame_dir (cap_frames video) 0 0
             else ret (0, 0));;
  release;;;
  log EvPbarClose;;;
  ret (mkLocals total_frames num_frames_to_extract frame_dir
                (fst counts) (snd counts)).

(** [FrameExtractor.extract_frames]: the body has no [return] statement. *)
Definition extract_frames (self : FrameExtractor) (frame_interval : Z)
  : M world pyval :=
  extract_frames_body self frame_interval;;;
  ret PyNone.

(** *** Vocabulary for the statements about [extract_frames] *)

(** [enumerate(frames, start)] *)
Fixpoint enumerate_from (start : Z) (frames : list frame) : list (Z * frame) :=
  match frames with
  | [] => []
  | f :: rest => (start, f) :: enumerate_from (start + 1) rest
  end.

(** The frames whose index is a multiple of the stride, with their index. *)
Definition sampled_from (k start : Z) (frames : list frame) : list (Z * frame) :=
  filter (fun p => fst p mod k = 0) (enumerate_from start frames).

Definition sampled (k : Z) (frames : list frame) : list (Z * frame) :=
  sampled_from k 0 frames.

(** The text handed to [cv2.imwrite] for frame [i]. *)
Definition frame_file (dir : Path) (i : Z) : string :=
  str (joinpath dir (pretty i ++ ".jpeg")).

Definition writes (dir : Path) (l : list (Z * frame)) : list (string * frame) :=
  map (fun p => (frame_file dir (fst p), snd p)) l.

(** The store after a sequence of [cv2.imwrite] calls. *)
Definition store_all (ok : string -> frame -> bool) (ws : list (string * frame))
    (fs : gmap string node) : gmap string node :=
  foldl (fun fs p => if can_write ok fs (fst p) (snd p)
                     then <[fst p := File (snd p)]> fs else fs) fs ws.

Definition loop_events (ws : list (string * frame)) : list event :=
  flat_map (fun p => [EvImwrite (fst p) (snd p); EvPbarUpdate 1]) ws.

(** The [cv2.imwrite] calls of a trace, in order. *)
Definition imwrites (t : list event) : list (string * frame) :=
  omap (fun e => match e with EvImwrite f img => Some (f, img) | _ => None end) t.

Definition is_release (e : event) : bool :=
  match e with EvRelease => true | _ => false end.

Definition is_open (e : event) : bool :=
  match e with EvOpen _ => true | _ => false end.

Definition count (f : event -> bool) (t : list event) : nat :=
  length (List.filter f t).

(** The frames the loop gets to see. *)
Definition delivered (cap : VideoCapture) : list frame :=
  if cap_opened cap then cap_frames cap else [].

Definition capture_of (self : FrameExtractor) (w : world) : VideoCapture :=
  w_video w (str (video_path self)).

Definition output_dir (self : FrameExtractor) (w : world) : Path :=
  Path_of_str ("frames_" ++ stem (video_path self) ++ "_" ++ cap_fps (capture_of self w)).

(** No regular file and no refusal stands where the directory or one of its
    ancestors is to be: the condition under which [mkdir] does not raise. *)
Definition free_in (fs : gmap string node) (r : string) (d : list string) : bool :=
  match fs !! str (mkPath r d) with
  | Some (File _) | Some (Refused _) => false
  | _ => true
  end.

Definition dir_free (fs : gmap string node) (p : Path) : bool :=
  forallb (free_in fs (root p)) (prefixes_from [] (parts p)).

(** *** A ten-frame clip *)

Definition example_frame (n : nat) : frame := repeat Byte.x2a (S n).

Definition example_capture : VideoCapture :=
  mkCapture true "30.0" 10 (map example_frame (seq 0 10)).

Definition example_extractor : FrameExtractor :=
  mkFrameExtractor (Path_of_str "data/clip.mp4").

(** An empty store ... *)
Definition example_world : world :=
  mkWorld (fun _ => example_capture) (fun _ _ => true) ∅ [].

(** ... and one where the name of the output directory is taken by a file. *)
Definition blocked_world : world :=
  mkWorld (fun _ => example_capture) (fun _ _ => true)
    {[ "frames_clip_30.0" := File [] ]} [].

(** A file the decoder cannot open ... *)
Definition unopened_world : world :=
  mkWorld (fun _ => mkCapture false "0.0" 0 []) (fun _ _ => true) ∅ [].

(** ... and a store that already has a text file inside the output
    directory. *)
Definition notes_world : world :=
  mkWorld (fun _ => example_capture) (fun _ _ => true)
    (<[ "frames_clip_30.0/notes.txt" := File [Byte.x61] ]>
       {[ "frames_clip_30.0" := Dir ]}) [].


End extractor.

(** ** Operations on Python values *)

Module py.

Fixpoint assoc (k : string) (items : list (string * pyval)) : option pyval :=
  match items with
  | [] => None
  | (k', v) :: rest => if String.eqb k' k then Some v else assoc k rest
  end.

(** [d[k] = v] on the items of a dict: an existing key keeps its place. *)
Fixpoint setitem (k : string) (v : pyval) (items : list (string * pyval))
  : list (string * pyval) :=
  match items with
  | [] => [(k, v)]
  | (k', v') :: rest =>
      if String.eqb k' k then (k, v) :: rest else (k', v') :: setitem k v rest
  end.

(** [x == s] for a string literal [s]. *)
Definition eq_str (x : pyval) (s : string) : bool :=
  match x with
  | PyStr t => String.eqb t s
  | _ => false
  end.

(** [x[k]] for a string key. *)
Definition getitem (x : pyval) (k : string) : result pyval :=
  match x with
  | PyDict items =>
      match assoc k items with
      | Some v => Ok v
      | None => Raise (KeyError k)
      end
  | _ => Raise TypeError
  end.

(** [x[0]]. *)
Definition getitem0 (x : pyval) : result pyval :=
  match x with
  | PyList (v :: _) => Ok v
  | PyList [] => Raise IndexError
  | PyStr (String a _) => Ok (PyStr (String a ""))
  | PyStr "" => Raise IndexError
  | PyDict _ => Raise (KeyErrorInt 0)
  | _ => Raise TypeError
  end.

(** [k in x] for a string [k]. *)
Definition contains (k : string) (x : pyval) : result bool :=
  match x with
  | PyDict items => Ok (bool_decide (is_Some (assoc k items)))
  | PyList l => Ok (existsb (fun v => eq_str v k) l)
  | PyStr s => Ok (str_contains k s)
  | _ => Raise TypeError
  end.

Fixpoint chars (s : string) : list pyval :=
  match s with
  | "" => []
  | String a s' => PyStr (String a "") :: chars s'
  end.

(** The values [for v in x] runs through. *)
Definition iter (x : pyval) : result (list pyval) :=
  match x with
  | PyList l => Ok l
  | PyDict items => Ok (map (fun kv => PyStr (fst kv)) items)
  | PyStr s => Ok (chars s)
  | _ => Raise TypeError
  end.

(** Truth value in a condition. *)
Definition truthy (x : pyval) : bool :=
  match x with
  | PyNone => false
  | PyBool b => b
  | PyInt n => negb (n =? 0)
  | PyStr s => negb (String.eqb s "")
  | PyList l => match l with [] => false | _ => true end
  | PyDict items => match items with [] => false | _ => true end
  end.

(** A value read as a record: it carries the field when [x[name]] succeeds. *)
Definition has_field (x : pyval) (name : string) : bool :=
  is_ok (getitem x name).

(** [x[k] if k in x else None] *)
Definition get_or_none (x : pyval) (k : string) : result pyval :=
  let? present := contains k x in
  if present then getitem x k else Ok PyNone.

End py.

(** ** converter.py *)

Module converter.
Import pathlib.

(** A printed line: literal text and interpolated values ([str(v)] is not
    expanded). *)
Inductive fragment : Type :=
| Text (s : string)
| Fmt (v : pyval).

Definition content : Type := list Byte.byte.

Inductive event : Type :=
| EvPrint (line : list fragment)
| EvProbe (file : string)                       (* ffmpeg.probe(file) *)
| EvRun (input output format : string).         (* ffmpeg.run(...) *)

(** The surroundings: what ffprobe reports for a file (its failure is an
    [FfmpegError] with the captured stderr), what a transcode does (the bytes
    it leaves at the output path, if any, and, when it fails, what it writes
    to its stderr), the file store, and the calls made so far. *)
Record world : Type := mkWorld {
  w_probe : string -> result pyval;
  w_transcode : string -> string -> string -> option content * option string;
  w_fs : gmap string content;
  w_trace : list event
}.

Definition log (e : event) : M world unit :=
  fun w => (mkWorld (w_probe w) (w_transcode w) (w_fs w) (w_trace w ++ [e]), Ok tt).

Definition print (line : list fragment) : M world unit := log (EvPrint line).

Record VideoConverter : Type := mkVideoConverter {
  input_path : Path;
  probe_raw : pyval;
  probe : pyval
}.

(** [VideoConverter.get_metadata] *)
Definition get_metadata (input_path : Path) : M world pyval :=
  log (EvProbe (str input_path));;;
  fun w =>
    match w_probe w (str input_path) with
    | Ok v => (w, Ok v)
    | Raise (FfmpegError stderr) =>
        (text <- lift (decode_stderr stderr);;
         print [Text "Error during fetching metadata: "; Text text];;;
         raise (FfmpegError stderr)) w
    | Raise e => (w, Raise e)
    end.

(** One turn of the loop over the raw streams: the record appended to
    [probe['streams']]. *)
Definition new_stream (stream : pyval) : result pyval :=
  let? codec_name := py.get_or_none stream "codec_name" in
  let? codec_type := py.get_or_none stream "codec_type" in
  let? duration := py.get_or_none stream "duration" in
  let? bit_rate := py.get_or_none stream "bit_rate" in
  let? frame_rate := py.get_or_none stream "r_frame_rate" in
  let? color_space := py.get_or_none stream "color_space" in
  let? color_range := py.get_or_none stream "color_range" in
  let items := [("codec_name", codec_name); ("codec_type", codec_type);
                ("duration", duration); ("bit_rate", bit_rate);
                ("frame_rate", frame_rate); ("color_space", color_space);
                ("color_range", color_range)] in
  let? has_width := py.contains "width" stream in
  let? items :=
    (if has_width then
       let? width := py.getitem stream "width" in
       Ok (py.setitem "width" width items)
     else Ok items) in
  let? has_height := py.contains "height" stream in
  let? items :=
    (if has_height then
       let? height := py.getitem stream "height" in
       Ok (py.setitem "height" height items)
     else Ok items) in
  Ok (PyDict items).

Fixpoint new_streams (streams : list pyval) : result (list pyval) :=
  match streams with
  | [] => Ok []
  | stream :: rest =>
      let? s := new_stream stream in
      let? ss := new_streams rest in
      Ok (s :: ss)
  end.

(** [VideoConverter.get_simplified_probe], a function of [self.probe_raw]. *)
Definition get_simplified_probe (probe_raw : pyval) : result pyval :=
  let? filename := (let? f := py.getitem probe_raw "format" in py.getitem f "filename") in
  let? duration := (let? f := py.getitem probe_raw "format" in py.getitem f "duration") in
  let? size := (let? f := py.getitem probe_raw "format" in py.getitem f "size") in
  let? bit_rate := (let? f := py.getitem probe_raw "format" in py.getitem f "bit_rate") in
  let? creation_time :=
    (let? f := py.getitem probe_raw "format" in
     let? tags := py.getitem f "tags" in
     let? present := py.contains "creation_time" tags in
     if present then
       let? f := py.getitem probe_raw "format" in
       let? tags := py.getitem f "tags" in
       py.getitem tags "creation_time"
     else Ok PyNone) in
  let? raw_streams := py.getitem probe_raw "streams" in
  let? streams := py.iter raw_streams in
  let? streams := new_streams streams in
  Ok (PyDict [("filename", filename); ("duration", duration); ("size", size);
              ("bit_rate", bit_rate); ("creation_time", creation_time);
              ("streams", PyList streams)]).

(** [VideoConverter.__init__] *)
Definition VideoConverter_init (input_path : Path) : M world VideoConverter :=
  probe_raw <- get_metadata input_path;;
  probe <- lift (get_simplified_probe probe_raw);;
  ret (mkVideoConverter input_path probe_raw probe).

(** [VideoConverter.print_metadata] *)
Definition print_metadata (self : VideoConverter) : M world unit :=
  duration <- lift (py.getitem (probe self) "duration");;
  print [Text "Video duration: "; Fmt duration];;;
  frame_rate <- lift (let? streams := py.getitem (probe self) "streams" in
                      let? first := py.getitem0 streams in
                      py.getitem first "frame_rate");;
  print [Text "Video framerate: "; Fmt frame_rate];;;
  width <- lift (let? streams := py.getitem (probe self) "streams" in
                 let? first := py.getitem0 streams in
                 py.getitem first "width");;
  height <- lift (let? streams := py.getitem (probe self) "streams" in
                  let? first := py.getitem0 streams in
                  py.getitem first "height");;
  print [Text "Video dimensions: "; Fmt width; Text "x"; Fmt height];;;
  cond <- lift (py.getitem (probe self) "creation_time");;
  shown <- (if py.truthy cond
            then lift (py.getitem (probe self) "creation_time")
            else ret (PyStr "Unknown"));;
  print [Text "Video creation time: "; Fmt shown].

Definition accepted_formats : list string :=
  ["mov,mp4,m4a,3gp,3g2,mj2"; "matroska,webm"; "avi"; "quicktime, mov"; "rawvideo"].

(** The comprehension [[stream for stream in ... if stream['codec_type'] == 'video']]. *)
Fixpoint video_streams_of (streams : list pyval) : result (list pyval) :=
  match streams with
  | [] => Ok []
  | stream :: rest =>
      let? codec_type := py.getitem stream "codec_type" in
      let? vs := video_streams_of rest in
      Ok (if py.eq_str codec_type "video" then stream :: vs else vs)
  end.

(** [VideoConverter.validate_file] *)
Definition validate_file (self : VideoConverter) : M world bool :=
  format <- lift (let? f := py.getitem (probe self) "format" in
                  py.getitem f "format_name");;
  if negb (existsb (py.eq_str format) accepted_formats) then
    print [Text "Invalid format: "; Fmt format];;;
    ret false
  else
    video_streams <- lift (let? streams := py.getitem (probe self) "streams" in
                           let? streams := py.iter streams in
                           video_streams_of streams);;
    if (length video_streams =? 0)%nat then
      print [Text "No valid video stream."];;;
      ret false
    else ret true.

(** The first four lines of [convert]: the path the output goes to. *)
Definition resolve_output_path (self : VideoConverter) (output_format : string)
    (output_path : option (string + Path)) : result Path :=
  match output_path with
  | None => with_suffix (input_path self) ("." ++ output_format)
  | Some (inl s) => Ok (Path_of_str s)
  | Some (inr p) => Ok p
  end.

(** [ffmpeg.run(stream, overwrite_output=True)]: stderr is not captured, it
    goes to the terminal, so the error raised on failure carries none. *)
Definition ffmpeg_run (input output format : string) : M world unit :=
  log (EvRun input output format);;;
  fun w =>
    let '(written, failure) := w_transcode w input output format in
    let fs := match written with
              | Some bytes => <[output := bytes]> (w_fs w)
              | None => w_fs w
              end in
    (mkWorld (w_probe w) (w_transcode w) fs (w_trace w),
     match failure with
     | Some _ => Raise (FfmpegError None)
     | None => Ok tt
     end).

(** [VideoConverter.convert] *)
Definition convert (self : VideoConverter) (output_format : string)
    (output_path : option (string + Path)) : M world pyval :=
  output_path <- lift (resolve_output_path self output_format output_path);;
  if String.eqb (suffix (input_path self)) (suffix output_path) then
    print [Text "Error: Input and output file types are the same (";
           Text (suffix (input_path self)); Text "). Conversion cancelled."];;;
    ret PyNone
  else
    fun w =>
      match ffmpeg_run (str (input_path self)) (str output_path) output_format w with
      | (w', Raise (FfmpegError stderr)) =>
          (text <- lift (decode_stderr stderr);;
           print [Text "Error during conversion: "; Text text];;;
           raise (FfmpegError stderr)) w'
      | (w', Raise e) => (w', Raise e)
      | (w', Ok _) =>
          (print [Text "Successfully converted "; Text (str (input_path self));
                  Text " to "; Text (str output_path)];;;
           ret PyNone) w'
      end.


(** *** Vocabulary for the statements about the probe *)

(** The value a record gives for a key, [None] when it has none. *)
Definition field (items : list (string * pyval)) (k : string) : pyval :=
  default PyNone (py.assoc k items).

(** The entry for a key that is copied only when present. *)
Definition entry_if_present (items : list (string * pyval)) (k : string)
  : list (string * pyval) :=
  match py.assoc k items with
  | Some v => [(k, v)]
  | None => []
  end.

(** The simplified record of a raw stream record. *)
Definition simplified_stream (items : list (string * pyval)) : pyval :=
  PyDict ([("codec_name", field items "codec_name");
           ("codec_type", field items "codec_type");
           ("duration", field items "duration");
           ("bit_rate", field items "bit_rate");
           ("frame_rate", field items "r_frame_rate");
           ("color_space", field items "color_space");
           ("color_range", field items "color_range")]
          ++ entry_if_present items "width"
          ++ entry_if_present items "height")%list.

Definition is_run (e : event) : bool :=
  match e with EvRun _ _ _ => true | _ => false end.

(** *** Sample ffprobe documents *)

Definition video_stream : list (string * pyval) :=
  [("index", PyInt 0); ("codec_name", PyStr "h264"); ("codec_type", PyStr "video");
   ("width", PyInt 1920); ("height", PyInt 1080); ("r_frame_rate", PyStr "30/1");
   ("duration", PyStr "10.000000"); ("bit_rate", PyStr "800000")].

Definition audio_stream : list (string * pyval) :=
  [("index", PyInt 1); ("codec_name", PyStr "aac"); ("codec_type", PyStr "audio");
   ("r_frame_rate", PyStr "0/0"); ("duration", PyStr "10.000000");
   ("bit_rate", PyStr "128000")].

Definition format_fields : list (string * pyval) :=
  [("filename", PyStr "clip.mp4"); ("nb_streams", PyInt 2);
   ("format_name", PyStr "mov,mp4,m4a,3gp,3g2,mj2");
   ("duration", PyStr "10.000000"); ("size", PyStr "1160000");
   ("bit_rate", PyStr "928000")].

(** An mp4 file with a video and an audio stream and format tags without a
    creation time. *)
Definition example_raw : pyval :=
  PyDict [("streams", PyList [PyDict video_stream; PyDict audio_stream]);
          ("format", PyDict (format_fields ++
                             [("tags", PyDict [("major_brand", PyStr "isom")])])%list)].

(** The same file when ffprobe finds no format tags and leaves the key out. *)
Definition untagged_raw : pyval :=
  PyDict [("streams", PyList [PyDict video_stream; PyDict audio_stream]);
          ("format", PyDict format_fields)].

(** The same file with the audio stream listed first. *)
Definition audio_first_raw : pyval :=
  PyDict [("streams", PyList [PyDict audio_stream; PyDict video_stream]);
          ("format", PyDict (format_fields ++
                             [("tags", PyDict [("major_brand", PyStr "isom")])])%list)].

Definition example_world : world :=
  mkWorld (fun _ => Ok example_raw) (fun _ _ _ => (Some [], None)) ∅ [].

(** A container without any stream. *)
Definition streamless_raw : pyval :=
  PyDict [("streams", PyList []);
          ("format", PyDict (format_fields ++
                             [("tags", PyDict [("creation_time", PyStr "2023-05-01")])])%list)].

Definition example_converter (file : string) : VideoConverter :=
  mkVideoConverter (Path_of_str file) example_raw
    (match get_simplified_probe example_raw with
     | Ok p => p
     | Raise _ => PyNone
     end).

Definition streamless_converter : VideoConverter :=
  mkVideoConverter (Path_of_str "empty.mp4") streamless_raw
    (match get_simplified_probe streamless_raw with
     | Ok p => p
     | Raise _ => PyNone
     end).

(** A transcoder that leaves four bytes at the output path, and a world in
    which the probe and the transcoder fail; in the last one the probe's
    stderr is Latin-1 text ("Datei nicht gefunden: Größe"), not UTF-8. *)
Definition transcoding_world : world :=
  mkWorld (fun _ => Ok example_raw)
    (fun _ _ _ => (Some [Byte.x00; Byte.x00; Byte.x00; Byte.x18], None)) ∅ [].

Definition failing_world : world :=
  mkWorld (fun _ => Raise (FfmpegError (Some "moov atom not found")))
    (fun _ _ _ => (None, Some "Unknown encoder")) ∅ [].

Definition latin1_stderr : string :=
  "Datei nicht gefunden: Gr" ++ String (ascii_of_N 246) (String (ascii_of_N 223) "e").

Definition undecodable_world : world :=
  mkWorld (fun _ => Raise (FfmpegError (Some latin1_stderr)))
    (fun _ _ _ => (None, Some "Unknown encoder")) ∅ [].

End converter.

(** * Facts about strings and paths *)

Section string_facts.
Local Open Scope string_scope.

Lemma str_app_cons x (a b : string) : String x a ++ b = String x (a ++ b).
Proof. reflexivity. Qed.

Lemma str_app_nil_l (a : string) : "" ++ a = a.
Proof. reflexivity. Qed.

Lemma str_app_assoc (a b c : string) : (a ++ b) ++ c = a ++ (b ++ c).
Proof.
  induction a as [|x a IH]; [done |].
  rewrite !str_app_cons. by rewrite IH.
Qed.

Lemma str_app_nil_r (a : string) : a ++ "" = a.
Proof.
  induction a as [|x a IH]; [done |].
  rewrite str_app_cons. by rewrite IH.
Qed.

Lemma str_app_length (a b : string) :
  String.length (a ++ b) = (String.length a + String.length b)%nat.
Proof.
  induction a as [|x a IH]; [done |].
  rewrite str_app_cons. simpl. by rewrite IH.
Qed.

Lemma str_app_inv_tail (a b t : string) : a ++ t = b ++ t -> a = b.
Proof.
  revert b. induction a as [|x a IH]; intros [|y b] H.
  - done.
  - apply (f_equal String.length) in H.
    rewrite str_app_cons, str_app_nil_l in H. simpl in H.
    rewrite str_app_length in H. lia.
  - apply (f_equal String.length) in H.
    rewrite str_app_cons, str_app_nil_l in H. simpl in H.
    rewrite str_app_length in H. lia.
  - rewrite !str_app_cons in H. injection H as -> H. f_equal. by apply IH.
Qed.

Lemma str_take_drop n (s : string) : str_take n s ++ str_drop n s = s.
Proof.
  revert s. induction n as [|n IH]; intros [|a s]; simpl; try done.
  rewrite str_app_cons. by rewrite IH.
Qed.

Lemma str_drop_length n (s : string) :
  String.length (str_drop n s) = (String.length s - n)%nat.
Proof.
  revert s. induction n as [|n IH]; intros [|a s]; simpl; try done.
Qed.

Lemma str_take_length n (s : string) :
  (n <= String.length s)%nat -> String.length (str_take n s) = n.
Proof.
  revert s. induction n as [|n IH]; intros [|a s]; simpl; try done; try lia.
  intros H. rewrite IH; lia.
Qed.

Lemma rfind_lt c (s : string) i : rfind c s = Some i -> (i < String.length s)%nat.
Proof.
  revert i. induction s as [|a s IH]; intros i; simpl; [done |].
  destruct (rfind c s) as [j|].
  - intros [= <-]. specialize (IH j eq_refl). lia.
  - destruct (Ascii.eqb a c); intros [= <-]. lia.
Qed.

(** Joining with one more component puts it after a prefix that depends on
    the earlier components only. *)
Lemma join_snoc sep (ps : list string) :
  exists pre, forall a, join sep (ps ++ [a])%list = pre ++ a.
Proof.
  induction ps as [|x ps [pre IH]].
  - exists "". done.
  - exists (x ++ sep ++ pre). intros a. simpl.
    destruct (ps ++ [a])%list as [|y l] eqn:E.
    + by destruct ps.
    + rewrite <- E, IH. by rewrite !str_app_assoc.
Qed.

Lemma str_joinpath (d : pathlib.Path) :
  exists pre, forall a, pathlib.str (pathlib.joinpath d a) = pre ++ a.
Proof.
  destruct (join_snoc "/" (pathlib.parts d)) as [pre Hpre].
  exists (pathlib.root d ++ pre). intros a.
  unfold pathlib.str, pathlib.joinpath. cbn [pathlib.root pathlib.parts].
  destruct (pathlib.root d) as [|c r].
  - destruct (pathlib.parts d ++ [a])%list eqn:E.
    { by destruct (pathlib.parts d). }
    by rewrite <- E, Hpre.
  - by rewrite Hpre, str_app_assoc.
Qed.

Lemma str_joinpath_inj (d : pathlib.Path) a b :
  pathlib.str (pathlib.joinpath d a) = pathlib.str (pathlib.joinpath d b) -> a = b.
Proof.
  destruct (str_joinpath d) as [pre H]. rewrite !H.
  apply (inj (String.append pre)).
Qed.

Lemma str_take_app (a b : string) : str_take (String.length a) (a ++ b) = a.
Proof.
  induction a as [|x a IH]; [by destruct b |].
  rewrite str_app_cons. simpl. by rewrite IH.
Qed.

Lemma str_drop_app (a b : string) : str_drop (String.length a) (a ++ b) = b.
Proof.
  induction a as [|x a IH]; [by destruct b |].
  rewrite str_app_cons. simpl. exact IH.
Qed.

Lemma rfind_none c (s : string) : has_char c s = false -> rfind c s = None.
Proof.
  induction s as [|a s IH]; simpl; [done |].
  intros H. apply orb_false_iff in H as [Ha Hs].
  by rewrite IH, Ha.
Qed.

(** The last occurrence of [c] in [a ++ c ++ b] when [b] has none. *)
Lemma rfind_app_last c (a b : string) :
  has_char c b = false -> rfind c (a ++ String c b) = Some (String.length a).
Proof.
  intros Hb. induction a as [|x a IH].
  - rewrite str_app_nil_l. simpl. by rewrite rfind_none, Ascii.eqb_refl.
  - rewrite str_app_cons. simpl. by rewrite IH.
Qed.

Lemma suffix_index_bounds nm i :
  pathlib.suffix_index nm = Some i -> (0 < i < String.length nm - 1)%nat.
Proof.
  unfold pathlib.suffix_index.
  destruct (rfind "." nm) as [j|]; [| done].
  destruct (Nat.ltb_spec 0 j), (Nat.ltb_spec j (String.length nm - 1));
    simpl; intros [= <-]; lia.
Qed.

Lemma name_stem_suffix nm : pathlib.name_stem nm ++ pathlib.name_suffix nm = nm.
Proof.
  unfold pathlib.name_stem, pathlib.name_suffix.
  destruct (pathlib.suffix_index nm); [apply str_take_drop | apply str_app_nil_r].
Qed.

(** [name[:-len(old_suffix)]] is the stem when there is a suffix. *)
Lemma name_without_suffix nm :
  pathlib.name_suffix nm <> "" ->
  str_take (String.length nm - String.length (pathlib.name_suffix nm)) nm =
  pathlib.name_stem nm.
Proof.
  unfold pathlib.name_stem, pathlib.name_suffix.
  destruct (pathlib.suffix_index nm) as [i|] eqn:E; [| done].
  intros _. apply suffix_index_bounds in E.
  rewrite str_drop_length. f_equal. lia.
Qed.

Lemma name_stem_nonempty nm :
  pathlib.name_suffix nm <> "" -> pathlib.name_stem nm <> "".
Proof.
  unfold pathlib.name_stem, pathlib.name_suffix.
  destruct (pathlib.suffix_index nm) as [i|] eqn:E; [| done].
  intros _ H. apply suffix_index_bounds in E.
  apply (f_equal String.length) in H. rewrite str_take_length in H by lia.
  simpl in H. lia.
Qed.

(** A name built from a stem, a dot and a dot-free extension splits back
    into these. *)
Lemma suffix_index_replaced (st ext : string) :
  st <> "" -> ext <> "" -> has_char "." ext = false ->
  pathlib.suffix_index (st ++ String "." ext) = Some (String.length st).
Proof.
  intros Hst Hext Hdot. unfold pathlib.suffix_index.
  rewrite rfind_app_last by done.
  rewrite str_app_length. simpl String.length.
  destruct st as [|x st]; [done |]. destruct ext as [|y ext]; [done |].
  simpl String.length.
  destruct (Nat.ltb_spec 0 (S (String.length st))); [| lia].
  destruct (Nat.ltb_spec (S (String.length st))
              (S (String.length st) + S (S (String.length ext)) - 1)); [done | lia].
Qed.

End string_facts.

(** * Properties of extractor.py *)

Section extractor_properties.
Import pathlib extractor.
Local Open Scope list_scope.

Lemma bind_ok {W A B} (m : M W A) (k : A -> M W B) w w1 a :
  m w = (w1, Ok a) -> bind m k w = k a w1.
Proof. intros H. unfold bind. by rewrite H. Qed.

Lemma bind_raise {W A B} (m : M W A) (k : A -> M W B) w w1 e :
  m w = (w1, Raise e) -> bind m k w = (w1, Raise e).
Proof. intros H. unfold bind. by rewrite H. Qed.

Lemma sampled_from_cons k c f rest :
  sampled_from k c (f :: rest) =
  if decide (c mod k = 0) then (c, f) :: sampled_from k (c + 1) rest
  else sampled_from k (c + 1) rest.
Proof. unfold sampled_from. simpl. rewrite filter_cons. simpl. done. Qed.

Lemma enumerate_from_length c frames :
  length (enumerate_from c frames) = length frames.
Proof. revert c. induction frames as [|f rest IH]; intros c; simpl; auto. Qed.

Lemma elem_of_enumerate_from c frames i f :
  (i, f) ∈ enumerate_from c frames <->
  c <= i /\ frames !! Z.to_nat (i - c) = Some f.
Proof.
  revert c. induction frames as [|g rest IH]; intros c; simpl.
  - rewrite elem_of_nil. split; [done | intros [_ H]; by rewrite lookup_nil in H].
  - rewrite elem_of_cons, IH. split.
    + intros [Heq | [Hle Hl]].
      * inversion Heq; subst. split; [lia |]. by replace (c - c) with 0 by lia.
      * split; [lia |].
        replace (Z.to_nat (i - c)) with (S (Z.to_nat (i - (c + 1)))) by lia.
        done.
    + intros [Hle Hl]. destruct (decide (i = c)) as [-> | Hne].
      * left. replace (c - c) with 0 in Hl by lia. simpl in Hl. congruence.
      * right. split; [lia |].
        replace (Z.to_nat (i - c)) with (S (Z.to_nat (i - (c + 1)))) in Hl by lia.
        done.
Qed.

(** The loop, run on [frames] from index [c]: which calls it makes, what the
    store holds afterwards and the two counters. *)
Lemma read_loop_spec k dir frames c e w :
  k <> 0 ->
  read_loop k dir frames c e w =
  (mkWorld (w_video w) (w_write w)
           (store_all (w_write w) (writes dir (sampled_from k c frames)) (w_fs w))
           (w_trace w ++ loop_events (writes dir (sampled_from k c frames))),
   Ok (c + Z.of_nat (length frames),
       e + Z.of_nat (length (sampled_from k c frames)))).
Proof.
  intros Hk. revert c e w.
  induction frames as [|f rest IH]; intros c e w.
  - simpl. unfold ret. destruct w; simpl. rewrite app_nil_r.
    by rewrite !Z.add_0_r.
  - rewrite sampled_from_cons. simpl read_loop.
    unfold bind at 1, lift, pymod.
    destruct (Z.eqb_spec k 0) as [|_]; [done |].
    destruct (decide (c mod k = 0)) as [Hm | Hm].
    + rewrite Hm. change (0 =? 0) with true. cbv iota.
      unfold imwrite, log, set_fs, bind, ret. cbv beta.
      cbn [w_video w_write w_fs w_trace].
      fold (frame_file dir c).
      change (writes dir ((c, f) :: sampled_from k (c + 1) rest))
        with ((frame_file dir c, f) :: writes dir (sampled_from k (c + 1) rest)).
      change (loop_events ((frame_file dir c, f) ::
                           writes dir (sampled_from k (c + 1) rest)))
        with (EvImwrite (frame_file dir c) f :: EvPbarUpdate 1 ::
              loop_events (writes dir (sampled_from k (c + 1) rest))).
      destruct (can_write (w_write w) (w_fs w) (frame_file dir c) f) eqn:Hcw;
        rewrite IH; cbn [w_video w_write w_fs w_trace];
        unfold store_all; cbn [foldl fst snd]; rewrite Hcw;
        (f_equal; [f_equal; by rewrite <- !app_assoc |]);
        simpl length; (f_equal; f_equal; lia).
    + destruct (Z.eqb_spec (c mod k) 0) as [|_]; [done |].
      rewrite IH. simpl length. do 3 f_equal. lia.
Qed.

(** Directory creation only ever adds directories: it touches neither the
    trace nor any stored file. *)
Lemma mkdir_each_inv r dirs w w' res :
  mkdir_each r dirs w = (w', res) ->
  w_video w' = w_video w /\ w_trace w' = w_trace w /\
  (forall file img, w_fs w' !! file = Some (File img) <->
                    w_fs w !! file = Some (File img)).
Proof.
  revert w. induction dirs as [|d rest IH]; intros w; simpl.
  - unfold ret. intros [= <- <-]. done.
  - destruct (w_fs w !! str (mkPath r d)) as [[|img0|e0]|] eqn:Hd.
    + apply IH.
    + intros [= <- <-]. done.
    + intros [= <- <-]. done.
    + unfold bind, set_fs. intros H. apply IH in H as (Hv & Ht & Hf).
      simpl in *. split; [done | split; [done |]].
      intros file img. rewrite Hf.
      destruct (decide (str (mkPath r d) = file)) as [<- | Hne].
      * rewrite lookup_insert_eq, Hd. split; intros [=].
      * by rewrite lookup_insert_ne.
Qed.

Lemma mkdir_inv p w w' res :
  mkdir p w = (w', res) ->
  w_video w' = w_video w /\ w_trace w' = w_trace w ++ [EvMkdir (str p)] /\
  (forall file img, w_fs w' !! file = Some (File img) <->
                    w_fs w !! file = Some (File img)).
Proof.
  unfold mkdir, bind, log. intros H. apply mkdir_each_inv in H. exact H.
Qed.

Lemma mkdir_each_write r dirs w w' res :
  mkdir_each r dirs w = (w', res) -> w_write w' = w_write w.
Proof.
  revert w. induction dirs as [|d rest IH]; intros w; simpl.
  - unfold ret. by intros [= <- <-].
  - destruct (w_fs w !! str (mkPath r d)) as [[|img0|e0]|].
    + apply IH.
    + by intros [= <- <-].
    + by intros [= <- <-].
    + unfold bind, set_fs. intros H. by apply IH in H.
Qed.

Lemma mkdir_write p w w' res :
  mkdir p w = (w', res) -> w_write w' = w_write w.
Proof.
  unfold mkdir, bind, log. intros H. by apply mkdir_each_write in H.
Qed.

(** A run of the body that ends without an exception: the world it leaves
    and the values of its locals. *)
Lemma extract_frames_body_ok self k w w' l :
  extract_frames_body self k w = (w', Ok l) ->
  k <> 0 /\
  exists fs1,
    (forall file img, fs1 !! file = Some (File img) <->
                      w_fs w !! file = Some (File img)) /\
    let cap := capture_of self w in
    let dir := output_dir self w in
    let ws := writes dir (sampled k (delivered cap)) in
    w' = mkWorld (w_video w) (w_write w) (store_all (w_write w) ws fs1)
           (w_trace w ++
            [EvOpen (str (video_path self)); EvMkdir (str dir);
             EvPbar (cap_frame_count cap / k)] ++
            loop_events ws ++ [EvRelease; EvPbarClose]) /\
    l = mkLocals (cap_frame_count cap) (cap_frame_count cap / k) dir
          (Z.of_nat (length (delivered cap)))
          (Z.of_nat (length (sampled k (delivered cap)))).
Proof.
  unfold extract_frames_body, VideoCapture_open.
  unfold bind at 1. unfold bind at 1. unfold log at 1. cbn [fst snd w_video].
  unfold bind at 1, lift at 1, floordiv.
  destruct (Z.eqb_spec k 0) as [|Hk]; [done |].
  unfold bind at 1.
  fold (capture_of self w). fold (output_dir self w).
  set (cap := capture_of self w). set (dir := output_dir self w).
  destruct (mkdir dir _) as [w1 [[]|e1]] eqn:Hmk; [| done].
  pose proof (mkdir_write _ _ _ _ Hmk) as Hwr.
  apply mkdir_inv in Hmk as (Hv & Ht & Hf). simpl in Hv, Ht, Hf, Hwr.
  unfold bind at 1, log at 1. unfold bind at 1.
  unfold delivered, sampled.
  destruct (cap_opened cap).
  - rewrite read_loop_spec by done. cbn [fst snd].
    unfold release, log, bind, ret. cbn [fst snd w_video w_write w_fs w_trace].
    intros [= <- <-]. split; [done |]. exists (w_fs w1).
    split; [done |]. split.
    + rewrite Hv, Ht, Hwr. f_equal. rewrite <- !app_assoc. simpl. done.
    + done.
  - unfold release, log, bind, ret. cbn [fst snd w_video w_write w_fs w_trace].
    intros [= <- <-]. split; [done |]. exists (w_fs w1).
    split; [done |]. split.
    + rewrite Hv, Ht, Hwr. simpl. f_equal. rewrite <- !app_assoc. simpl. done.
    + done.
Qed.

(** A run of the body that ends in an exception stops before the loop, and
    before the call of [release]. *)
Lemma extract_frames_body_raise self k w w' e :
  extract_frames_body self k w = (w', Raise e) ->
  exists t, w_trace w' = w_trace w ++ EvOpen (str (video_path self)) :: t /\
            (t = [] \/ t = [EvMkdir (str (output_dir self w))]).
Proof.
  unfold extract_frames_body, VideoCapture_open.
  unfold bind at 1. unfold bind at 1. unfold log at 1. cbn [fst snd w_video].
  unfold bind at 1, lift at 1, floordiv.
  destruct (Z.eqb_spec k 0) as [|Hk].
  { intros [= <- <-]. exists []. simpl. auto. }
  unfold bind at 1.
  fold (capture_of self w). fold (output_dir self w).
  set (cap := capture_of self w). set (dir := output_dir self w).
  destruct (mkdir dir _) as [w1 [[]|e1]] eqn:Hmk.
  - unfold bind at 1, log at 1. unfold bind at 1.
    destruct (cap_opened cap).
    + rewrite read_loop_spec by done.
      unfold release, log, bind, ret. cbn. done.
    + unfold release, log, bind, ret. cbn. done.
  - apply mkdir_inv in Hmk as (Hv & Ht & Hf). simpl in Ht.
    intros [= <- <-]. exists [EvMkdir (str dir)]. split; [| auto].
    rewrite Ht. by rewrite <- app_assoc.
Qed.

Lemma mkdir_each_ok r dirs w :
  forallb (free_in (w_fs w) r) dirs = true ->
  exists w', mkdir_each r dirs w = (w', Ok tt).
Proof.
  revert w. induction dirs as [|d rest IH]; intros w Hfree; simpl.
  - by exists w.
  - simpl in Hfree. apply andb_true_iff in Hfree as [Hd Hrest].
    unfold free_in in Hd.
    destruct (w_fs w !! str (mkPath r d)) as [[|img|e0]|] eqn:E;
      [by apply IH | done | done |].
    unfold bind, set_fs. apply IH. cbn [w_fs].
    apply forallb_forall. intros d' Hin.
    rewrite forallb_forall in Hrest. specialize (Hrest d' Hin).
    unfold free_in in *.
    destruct (decide (str (mkPath r d) = str (mkPath r d'))) as [<- | Hne].
    + by rewrite lookup_insert_eq.
    + by rewrite lookup_insert_ne.
Qed.

(** With a non-zero stride and nothing in the way of the output directory
    the body runs to its end. *)
Lemma extract_frames_body_completes self k w :
  k <> 0 ->
  dir_free (w_fs w) (output_dir self w) = true ->
  exists w' l, extract_frames_body self k w = (w', Ok l).
Proof.
  intros Hk Hfree.
  unfold extract_frames_body, VideoCapture_open.
  unfold bind at 1. unfold bind at 1. unfold log at 1. cbn [fst snd w_video].
  unfold bind at 1, lift at 1, floordiv.
  destruct (Z.eqb_spec k 0) as [|_]; [done |].
  unfold bind at 1.
  fold (capture_of self w). fold (output_dir self w).
  set (cap := capture_of self w). set (dir := output_dir self w).
  unfold mkdir. unfold bind at 1, log at 1.
  edestruct (mkdir_each_ok (root dir) (prefixes_from [] (parts dir))) as [w1 ->].
  { exact Hfree. }
  unfold bind at 1, log at 1. unfold bind at 1.
  destruct (cap_opened cap).
  - rewrite read_loop_spec by done.
    unfold release, log, bind, ret. cbn. eauto.
  - unfold release, log, bind, ret. cbn. eauto.
Qed.

Lemma extract_frames_completes self k w :
  k <> 0 ->
  dir_free (w_fs w) (output_dir self w) = true ->
  exists w' l, extract_frames_body self k w = (w', Ok l) /\
               extract_frames self k w = (w', Ok PyNone).
Proof.
  intros Hk Hfree.
  destruct (extract_frames_body_completes self k w Hk Hfree) as (w' & l & Hb).
  exists w', l. split; [done |].
  unfold extract_frames, bind, ret. by rewrite Hb.
Qed.

(** Distinct frame numbers go to distinct files. *)
Lemma frame_file_inj dir i j : frame_file dir i = frame_file dir j -> i = j.
Proof.
  unfold frame_file. intros H. apply str_joinpath_inj in H.
  apply str_app_inv_tail in H. by apply (inj pretty).
Qed.

Lemma can_write_ext ok (fs1 fs2 : gmap string node) file img :
  fs1 !! file = fs2 !! file ->
  can_write ok fs1 file img = can_write ok fs2 file img.
Proof. intros H. unfold can_write. by rewrite H. Qed.

Lemma store_all_cons ok f0 img0 ws fs :
  store_all ok ((f0, img0) :: ws) fs =
  store_all ok ws (if can_write ok fs f0 img0 then <[f0 := File img0]> fs else fs).
Proof. reflexivity. Qed.

Lemma store_all_keeps ok ws fs file :
  file ∉ map fst ws -> store_all ok ws fs !! file = fs !! file.
Proof.
  revert fs. induction ws as [|[f img] ws IH]; intros fs Hn; [done |].
  simpl in Hn. apply not_elem_of_cons in Hn as [Hne Hn].
  rewrite store_all_cons, IH by done.
  destruct (can_write ok fs f img); [by rewrite lookup_insert_ne | done].
Qed.

(** One write per path: the file holds the image exactly when the write
    could be done, and is as before otherwise. *)
Lemma store_all_at ok ws fs file img :
  NoDup (map fst ws) -> (file, img) ∈ ws ->
  store_all ok ws fs !! file =
  if can_write ok fs file img then Some (File img) else fs !! file.
Proof.
  revert fs. induction ws as [|[f0 img0] ws IH]; intros fs Hnd Hin.
  - by apply elem_of_nil in Hin.
  - simpl in Hnd. apply NoDup_cons in Hnd as [Hfresh Hnd].
    rewrite store_all_cons.
    apply elem_of_cons in Hin as [[= -> ->] | Hin].
    + rewrite store_all_keeps by done.
      destruct (can_write ok fs f0 img0); [apply lookup_insert_eq | done].
    + assert (Hne : f0 <> file).
      { intros ->. apply Hfresh. apply list_elem_of_fmap. by exists (file, img). }
      rewrite IH by done.
      assert (Hsame : (if can_write ok fs f0 img0
                       then <[f0 := File img0]> fs else fs) !! file = fs !! file).
      { destruct (can_write ok fs f0 img0); [by rewrite lookup_insert_ne | done]. }
      by rewrite (can_write_ext ok _ fs file img Hsame), Hsame.
Qed.

Lemma store_all_holds ok ws fs file img :
  NoDup (map fst ws) -> (file, img) ∈ ws ->
  can_write ok fs file img = true ->
  store_all ok ws fs !! file = Some (File img).
Proof. intros Hnd Hin Hcw. by rewrite (store_all_at _ _ _ _ _ Hnd Hin), Hcw. Qed.


Lemma elem_of_sampled_from k c frames i f :
  (i, f) ∈ sampled_from k c frames <->
  c <= i /\ frames !! Z.to_nat (i - c) = Some f /\ i mod k = 0.
Proof.
  unfold sampled_from. rewrite list_elem_of_filter, elem_of_enumerate_from.
  simpl. tauto.
Qed.

Lemma sampled_from_indices k c frames :
  NoDup (map fst (sampled_from k c frames)).
Proof.
  revert c. induction frames as [|f rest IH]; intros c.
  - constructor.
  - rewrite sampled_from_cons. destruct (decide (c mod k = 0)); [| apply IH].
    simpl. apply NoDup_cons. split; [| apply IH].
    intros Hin. apply list_elem_of_fmap in Hin as ([i g] & Hi & Hin).
    simpl in Hi. subst i.
    apply elem_of_sampled_from in Hin. lia.
Qed.

Lemma writes_files dir l :
  NoDup (map fst l) -> NoDup (map fst (writes dir l)).
Proof.
  unfold writes. rewrite map_map. simpl.
  intros H. rewrite <- (map_map fst (frame_file dir)).
  assert (Inj (=) (=) (frame_file dir)) by (intros i j; apply frame_file_inj).
  by apply (NoDup_fmap_2 (frame_file dir)).
Qed.

Lemma elem_of_writes dir l file img :
  (file, img) ∈ writes dir l <->
  exists i, file = frame_file dir i /\ (i, img) ∈ l.
Proof.
  unfold writes. rewrite list_elem_of_fmap. split.
  - intros ([i g] & [= -> ->] & Hin). by exists i.
  - intros (i & -> & Hin). by exists (i, img).
Qed.

Lemma imwrites_app t1 t2 : imwrites (t1 ++ t2) = imwrites t1 ++ imwrites t2.
Proof. unfold imwrites. apply omap_app. Qed.

Lemma imwrites_loop_events ws : imwrites (loop_events ws) = ws.
Proof.
  induction ws as [|[f img] ws IH]; [done |].
  simpl. unfold imwrites in *. simpl. by rewrite IH.
Qed.

Lemma count_app f t1 t2 : count f (t1 ++ t2) = (count f t1 + count f t2)%nat.
Proof. unfold count. by rewrite List.filter_app, length_app. Qed.

Lemma count_loop_events_release ws : count is_release (loop_events ws) = 0%nat.
Proof. induction ws as [|[f img] ws IH]; [done |]. simpl. exact IH. Qed.

Lemma count_loop_events_open ws : count is_open (loop_events ws) = 0%nat.
Proof. induction ws as [|[f img] ws IH]; [done |]. simpl. exact IH. Qed.

(** How many indices from [c] on, among [n] consecutive ones, are multiples
    of [k]. *)
Lemma ceil_step k c :
  1 <= k ->
  (c + 1 + k - 1) / k = (c + k - 1) / k + (if decide (c mod k = 0) then 1 else 0).
Proof.
  intros Hk.
  pose proof (Z.div_mod c k ltac:(lia)) as Hc.
  pose proof (Z.mod_pos_bound c k ltac:(lia)) as Hr.
  destruct (decide (c mod k = 0)) as [H0 | Hn0].
  - rewrite H0 in Hc.
    rewrite <- (Z.div_unique_pos (c + 1 + k - 1) k (c / k + 1) 0) by lia.
    rewrite <- (Z.div_unique_pos (c + k - 1) k (c / k) (k - 1)) by lia.
    done.
  - rewrite <- (Z.div_unique_pos (c + 1 + k - 1) k (c / k + 1) (c mod k)) by lia.
    rewrite <- (Z.div_unique_pos (c + k - 1) k (c / k + 1) (c mod k - 1)) by lia.
    lia.
Qed.

Lemma sampled_from_length k c frames :
  1 <= k ->
  Z.of_nat (length (sampled_from k c frames)) =
  (c + Z.of_nat (length frames) + k - 1) / k - (c + k - 1) / k.
Proof.
  intros Hk. revert c. induction frames as [|f rest IH]; intros c.
  - simpl. rewrite Z.add_0_r. lia.
  - rewrite sampled_from_cons.
    pose proof (ceil_step k c Hk) as Hs.
    replace (c + Z.of_nat (length (f :: rest)) + k - 1)
      with (c + 1 + Z.of_nat (length rest) + k - 1) by (simpl length; lia).
    destruct (decide (c mod k = 0)); simpl length; rewrite ?Nat2Z.inj_succ, IH; lia.
Qed.

Lemma sampled_length k frames :
  1 <= k ->
  Z.of_nat (length (sampled k frames)) = (Z.of_nat (length frames) + k - 1) / k.
Proof.
  intros Hk. unfold sampled. rewrite sampled_from_length by done.
  rewrite Z.add_0_l. replace ((0 + k - 1) / k) with 0; [lia |].
  symmetry. apply Z.div_small. lia.
Qed.

Lemma mkdir_each_keeps_dir r dirs w w' res key :
  mkdir_each r dirs w = (w', res) ->
  w_fs w !! key = Some Dir -> w_fs w' !! key = Some Dir.
Proof.
  revert w. induction dirs as [|d rest IH]; intros w; simpl.
  - unfold ret. by intros [= <- <-].
  - destruct (w_fs w !! str (mkPath r d)) as [[|img|e0]|] eqn:E.
    + apply IH.
    + by intros [= <- <-].
    + by intros [= <- <-].
    + unfold bind, set_fs. intros H Hkey. apply (IH _ H). cbn [w_fs].
      destruct (decide (str (mkPath r d) = key)) as [<- | Hne].
      * by rewrite lookup_insert_eq.
      * by rewrite lookup_insert_ne.
Qed.

(** Making directories changes the store at the paths of these directories
    only. *)
Lemma mkdir_each_other r dirs w w' res key :
  mkdir_each r dirs w = (w', res) ->
  (forall d, d ∈ dirs -> key <> str (mkPath r d)) ->
  w_fs w' !! key = w_fs w !! key.
Proof.
  revert w. induction dirs as [|d rest IH]; intros w; simpl.
  - unfold ret. by intros [= <- <-].
  - intros H Hkey.
    assert (Hrest : forall d', d' ∈ rest -> key <> str (mkPath r d'))
      by (intros d' Hd'; apply Hkey, elem_of_cons; by right).
    destruct (w_fs w !! str (mkPath r d)) as [[|img|e0]|] eqn:E.
    + by apply IH.
    + by injection H as <- <-.
    + by injection H as <- <-.
    + unfold bind, set_fs in H. rewrite (IH _ H Hrest). cbn [w_fs].
      rewrite lookup_insert_ne; [done |].
      intros Heq. apply (Hkey d); [apply elem_of_cons; by left | done].
Qed.

Lemma mkdir_each_made r dirs w w' :
  mkdir_each r dirs w = (w', Ok tt) ->
  forall d, d ∈ dirs -> w_fs w' !! str (mkPath r d) = Some Dir.
Proof.
  revert w. induction dirs as [|d0 rest IH]; intros w H d Hin.
  - by apply elem_of_nil in Hin.
  - simpl in H. apply elem_of_cons in Hin as [-> | Hin].
    + destruct (w_fs w !! str (mkPath r d0)) as [[|img|e0]|] eqn:E.
      * by apply (mkdir_each_keeps_dir _ _ _ _ _ _ H).
      * done.
      * done.
      * unfold bind, set_fs in H.
        apply (mkdir_each_keeps_dir _ _ _ _ _ _ H). cbn [w_fs].
        by rewrite lookup_insert_eq.
    + destruct (w_fs w !! str (mkPath r d0)) as [[|img|e0]|] eqn:E.
      * by apply (IH _ H).
      * done.
      * done.
      * unfold bind, set_fs in H. by apply (IH _ H).
Qed.

Lemma mkdir_each_noop r dirs w :
  (forall d, d ∈ dirs -> w_fs w !! str (mkPath r d) = Some Dir) ->
  mkdir_each r dirs w = (w, Ok tt).
Proof.
  induction dirs as [|d rest IH]; intros Hall; simpl; [done |].
  rewrite (Hall d) by (apply elem_of_cons; by left).
  apply IH. intros d' Hin. apply Hall. apply elem_of_cons. by right.
Qed.

Lemma prefixes_from_spec acc ps d :
  d ∈ prefixes_from acc ps ->
  d <> [] /\ exists more, acc ++ ps = d ++ more.
Proof.
  revert acc. induction ps as [|x xs IH]; intros acc Hin; simpl in Hin.
  - by apply elem_of_nil in Hin.
  - apply elem_of_cons in Hin as [-> | Hin].
    + split; [by destruct acc |]. exists xs. by rewrite <- app_assoc.
    + apply IH in Hin as [Hne (more & Hm)]. split; [done |].
      exists more. rewrite <- Hm. by rewrite <- app_assoc.
Qed.

Lemma join_app sep (d l : list string) :
  d <> [] -> l <> [] ->
  join sep (d ++ l) = (join sep d ++ sep ++ join sep l)%string.
Proof.
  intros Hd Hl. induction d as [|x d IH]; [done |].
  destruct d as [|y d].
  - simpl. by destruct l.
  - change (join sep ((x :: y :: d) ++ l))
      with (x ++ sep ++ join sep ((y :: d) ++ l))%string.
    rewrite IH by done.
    change (join sep (x :: y :: d)) with (x ++ sep ++ join sep (y :: d))%string.
    by rewrite !str_app_assoc.
Qed.

Lemma str_nonempty r d : d <> [] -> str (mkPath r d) = (r ++ join "/" d)%string.
Proof. intros Hd. unfold str. cbn [root parts]. by destruct r, d. Qed.

(** The directory and its ancestors have other paths than its frame files. *)
Lemma prefix_is_no_frame_file dir d a :
  d ∈ prefixes_from [] (parts dir) ->
  str (mkPath (root dir) d) <> str (joinpath dir a).
Proof.
  intros Hin. apply prefixes_from_spec in Hin as [Hne (more & Hm)].
  simpl in Hm. intros Heq. apply (f_equal String.length) in Heq.
  unfold joinpath in Heq. rewrite Hm, <- app_assoc in Heq.
  rewrite !str_nonempty in Heq by (done || by destruct d).
  rewrite join_app in Heq by (done || by destruct more).
  rewrite !str_app_length in Heq. simpl in Heq. lia.
Qed.

Lemma store_all_twice ok ws fs :
  NoDup (map fst ws) ->
  store_all ok ws (store_all ok ws fs) = store_all ok ws fs.
Proof.
  intros Hnd. apply map_eq. intros key.
  destruct (decide (key ∈ map fst ws)) as [Hin | Hout].
  - apply list_elem_of_fmap in Hin as ([f img] & -> & Hin). simpl.
    rewrite (store_all_at ok ws (store_all ok ws fs) f img Hnd Hin).
    pose proof (store_all_at ok ws fs f img Hnd Hin) as Hfirst.
    destruct (can_write ok fs f img) eqn:Hcw.
    + rewrite Hfirst. by destruct (can_write ok (store_all ok ws fs) f img).
    + rewrite (can_write_ext ok _ fs f img Hfirst), Hcw. done.
  - by rewrite !store_all_keeps.
Qed.

(** The body, step by step up to the outcome of making the directory. *)
Lemma extract_frames_body_unfold self k w :
  k <> 0 ->
  extract_frames_body self k w =
  match mkdir_each (root (output_dir self w))
          (prefixes_from [] (parts (output_dir self w)))
          (mkWorld (w_video w) (w_write w) (w_fs w)
             ((w_trace w ++ [EvOpen (str (video_path self))]) ++
              [EvMkdir (str (output_dir self w))])) with
  | (w1, Ok _) =>
      let ws := writes (output_dir self w)
                  (sampled k (delivered (capture_of self w))) in
      (mkWorld (w_video w1) (w_write w1) (store_all (w_write w1) ws (w_fs w1))
         (w_trace w1 ++
          [EvPbar (cap_frame_count (capture_of self w) / k)] ++
          loop_events ws ++ [EvRelease; EvPbarClose]),
       Ok (mkLocals (cap_frame_count (capture_of self w))
             (cap_frame_count (capture_of self w) / k) (output_dir self w)
             (Z.of_nat (length (delivered (capture_of self w))))
             (Z.of_nat (length (sampled k (delivered (capture_of self w)))))))
  | (w1, Raise e) => (w1, Raise e)
  end.
Proof.
  intros Hk.
  unfold extract_frames_body, VideoCapture_open.
  unfold bind at 1. unfold bind at 1. unfold log at 1. cbn [fst snd w_video].
  unfold bind at 1, lift at 1, floordiv.
  destruct (Z.eqb_spec k 0) as [|_]; [done |].
  unfold bind at 1.
  fold (capture_of self w). fold (output_dir self w).
  unfold mkdir. unfold bind at 1, log at 1. cbn [w_video w_write w_fs w_trace].
  destruct (mkdir_each _ _ _) as [w1 [[]|e1]]; [| done].
  unfold bind at 1, log at 1. unfold bind at 1.
  unfold delivered, sampled.
  destruct (cap_opened (capture_of self w)).
  - rewrite read_loop_spec by done. cbn [fst snd].
    unfold release, log, bind, ret. cbn [fst snd w_video w_write w_fs w_trace].
    f_equal. f_equal. rewrite <- !app_assoc. done.
  - unfold release, log, bind, ret. cbn [fst snd w_video w_write w_fs w_trace].
    f_equal. f_equal. rewrite <- !app_assoc. done.
Qed.

(** What the store holds at the path of a sampled frame after a completed
    run: the frame when [cv2.imwrite] could write it there, and what was
    there before otherwise. *)
Lemma extract_frames_body_store self k w w' l i f :
  extract_frames_body self k w = (w', Ok l) ->
  (i, f) ∈ sampled k (delivered (capture_of self w)) ->
  w_fs w' !! frame_file (output_dir self w) i =
  if can_write (w_write w) (w_fs w) (frame_file (output_dir self w) i) f
  then Some (File f) else w_fs w !! frame_file (output_dir self w) i.
Proof.
  intros Hbody Hin.
  assert (Hk : k <> 0) by (by apply extract_frames_body_ok in Hbody as (? & _)).
  rewrite (extract_frames_body_unfold self k w Hk) in Hbody.
  destruct (mkdir_each _ _ _) as [w1 [[]|e]] eqn:Hmk; [| done].
  injection Hbody as <- _. cbn [w_fs].
  pose proof (mkdir_each_write _ _ _ _ _ Hmk) as Hwr. cbn [w_write] in Hwr.
  assert (Hsame : w_fs w1 !! frame_file (output_dir self w) i =
                  w_fs w !! frame_file (output_dir self w) i).
  { rewrite (mkdir_each_other _ _ _ _ _ _ Hmk); [done |].
    intros d Hd Heq. symmetry in Heq. unfold frame_file in Heq.
    exact (prefix_is_no_frame_file _ d _ Hd Heq). }
  rewrite (store_all_at _ _ _ (frame_file (output_dir self w) i) f).
  - by rewrite Hwr, (can_write_ext _ _ (w_fs w) _ _ Hsame), Hsame.
  - apply writes_files, sampled_from_indices.
  - apply elem_of_writes. by exists i.
Qed.



Lemma extract_frames_ok self k w w' v :
  extract_frames self k w = (w', Ok v) ->
  v = PyNone /\ exists l, extract_frames_body self k w = (w', Ok l).
Proof.
  unfold extract_frames, bind, ret.
  destruct (extract_frames_body self k w) as [w1 [l|e]]; [| done].
  intros [= <- <-]. eauto.
Qed.

Lemma extract_frames_raise self k w w' e :
  extract_frames self k w = (w', Raise e) ->
  extract_frames_body self k w = (w', Raise e).
Proof.
  unfold extract_frames, bind, ret.
  destruct (extract_frames_body self k w) as [w1 [l|e1]]; [done |].
  by intros [= <- <-].
Qed.

(** C8. Constructing a [FrameExtractor] succeeds exactly for a path whose
    suffix is [.mp4]; for any other path the assertion fails, and in both
    cases nothing has been opened or decoded: the world is as before. *)
Theorem FrameExtractor_init_requires_mp4 (video_path : Path) (w : world) :
  (suffix video_path = ".mp4" /\
   FrameExtractor_init video_path w = (w, Ok (mkFrameExtractor video_path)))
  \/
  (suffix video_path <> ".mp4" /\
   FrameExtractor_init video_path w =
     (w, Raise (AssertionError "Video file must be a .mp4 file"))).
Proof.
  unfold FrameExtractor_init.
  destruct (String.eqb_spec (suffix video_path) ".mp4") as [E | E].
  - left. by split.
  - right. by split.
Qed.


(** C10. With stride [k >= 1], for a source that reports [n >= 0] frames
    and delivers [n] frames, the estimate computed up front and given to the
    progress bar is [n // k], the floor of [n / k], while the number of
    frames extracted, that is handed to [cv2.imwrite] (and stored, where the
    write can be done), is the ceiling of [n / k]; the two agree when [k]
    divides [n], and otherwise ([n > 0] then) the extracted count is the
    estimate plus one. *)
Theorem estimate_is_floor_extracted_is_ceiling self k w n :
  1 <= k -> 0 <= n ->
  dir_free (w_fs w) (output_dir self w) = true ->
  cap_opened (capture_of self w) = true ->
  cap_frame_count (capture_of self w) = n ->
  Z.of_nat (length (cap_frames (capture_of self w))) = n ->
  exists w' l,
    extract_frames self k w = (w', Ok PyNone) /\
    extract_frames_body self k w = (w', Ok l) /\
    num_frames_to_extract l = n / k /\
    (k * num_frames_to_extract l <= n < k * (num_frames_to_extract l + 1)) /\
    extracted_count l = (n + k - 1) / k /\
    (k * (extracted_count l - 1) < n <= k * extracted_count l) /\
    (n mod k = 0 -> extracted_count l = num_frames_to_extract l) /\
    (n mod k <> 0 -> 0 < n /\ extracted_count l = num_frames_to_extract l + 1) /\
    (exists t,
       w_trace w' = w_trace w ++ t /\
       In (EvPbar (n / k)) t /\
       imwrites t =
         map (fun p => (str (joinpath (output_dir self w)
                               (pretty (fst p) ++ ".jpeg")%string), snd p))
             (sampled k (cap_frames (capture_of self w))) /\
       Z.of_nat (length (imwrites t)) = (n + k - 1) / k) /\
    (forall i f,
       (i, f) ∈ sampled k (cap_frames (capture_of self w)) ->
       can_write (w_write w) (w_fs w)
         (str (joinpath (output_dir self w) (pretty i ++ ".jpeg")%string)) f = true ->
       w_fs w' !! str (joinpath (output_dir self w) (pretty i ++ ".jpeg")%string) =
       Some (File f)).
Proof.
  intros Hk Hn Hfree Hopen Hcount Hlen.
  destruct (extract_frames_completes self k w ltac:(lia) Hfree)
    as (w' & l & Hbody & Hrun).
  exists w', l. split; [exact Hrun |]. split; [exact Hbody |].
  pose proof (fun i f => extract_frames_body_store self k w w' l i f Hbody) as Hstore.
  apply extract_frames_body_ok in Hbody as (_ & fs1 & _ & Hw' & Hl).
  unfold delivered in Hl, Hw', Hstore. rewrite Hopen in Hl, Hw', Hstore.
  rewrite Hcount in Hl, Hw'.
  assert (Hsl : Z.of_nat (length (sampled k (cap_frames (capture_of self w)))) =
                (n + k - 1) / k).
  { rewrite sampled_length by done. by rewrite Hlen. }
  assert (He : extracted_count l = (n + k - 1) / k) by (by rewrite Hl).
  assert (Hf : num_frames_to_extract l = n / k) by (by rewrite Hl).
  pose proof (Z.div_mod n k ltac:(lia)) as Hdm.
  pose proof (Z.mod_pos_bound n k ltac:(lia)) as Hr.
  assert (Hceil : (n + k - 1) / k = n / k + (if decide (n mod k = 0) then 0 else 1)).
  { destruct (decide (n mod k = 0)) as [E | E].
    - rewrite E in Hdm.
      rewrite <- (Z.div_unique_pos (n + k - 1) k (n / k) (k - 1)) by lia. lia.
    - rewrite <- (Z.div_unique_pos (n + k - 1) k (n / k + 1) (n mod k - 1)) by lia.
      done. }
  assert (Htrace : exists t,
       w_trace w' = w_trace w ++ t /\
       In (EvPbar (n / k)) t /\
       imwrites t =
         map (fun p => (str (joinpath (output_dir self w)
                               (pretty (fst p) ++ ".jpeg")%string), snd p))
             (sampled k (cap_frames (capture_of self w))) /\
       Z.of_nat (length (imwrites t)) = (n + k - 1) / k).
  { rewrite Hw'. cbn [w_trace]. eexists. split; [reflexivity |].
    split; [simpl; auto |].
    assert (Him : imwrites
              ([EvOpen (str (video_path self)); EvMkdir (str (output_dir self w));
                EvPbar (n / k)] ++
               loop_events (writes (output_dir self w)
                              (sampled k (cap_frames (capture_of self w)))) ++
               [EvRelease; EvPbarClose]) =
            writes (output_dir self w) (sampled k (cap_frames (capture_of self w)))).
    { rewrite !imwrites_app, imwrites_loop_events. simpl. by rewrite app_nil_r. }
    split; [exact Him |].
    rewrite Him. unfold writes. by rewrite length_map. }
  assert (Hfiles : forall i f,
       (i, f) ∈ sampled k (cap_frames (capture_of self w)) ->
       can_write (w_write w) (w_fs w)
         (str (joinpath (output_dir self w) (pretty i ++ ".jpeg")%string)) f = true ->
       w_fs w' !! str (joinpath (output_dir self w) (pretty i ++ ".jpeg")%string) =
       Some (File f)).
  { intros i f Hin Hcw. pose proof (Hstore i f Hin) as Hs.
    unfold frame_file in Hs. by rewrite Hcw in Hs. }
  assert (Hnum :
    num_frames_to_extract l = n / k /\
    (k * num_frames_to_extract l <= n < k * (num_frames_to_extract l + 1)) /\
    extracted_count l = (n + k - 1) / k /\
    (k * (extracted_count l - 1) < n <= k * extracted_count l) /\
    (n mod k = 0 -> extracted_count l = num_frames_to_extract l) /\
    (n mod k <> 0 -> 0 < n /\ extracted_count l = num_frames_to_extract l + 1)).
  { rewrite He, Hf, Hceil.
    destruct (decide (n mod k = 0)) as [E | E].
    - rewrite E in Hdm. repeat split; try lia.
    - repeat split; try lia.
      destruct (decide (n = 0)) as [-> | ?]; [| lia].
      by rewrite Z.mod_0_l in E by lia. }
  destruct Hnum as (N1 & N2 & N3 & N4 & N5 & N6).
  exact (conj N1 (conj N2 (conj N3 (conj N4 (conj N5 (conj N6
           (conj Htrace Hfiles))))))).
Qed.

(** C4 (as the code has it). A run of [extract_frames] that completes returns
    [None]: the number of frames read, the number extracted and the output
    directory are the final values of the locals [frame_count],
    [extracted_count] and [frame_dir], which the method does not return. *)
Theorem extract_frames_returns_none self k w w' v :
  extract_frames self k w = (w', Ok v) ->
  v = PyNone /\
  exists l,
    extract_frames_body self k w = (w', Ok l) /\
    frame_count l = Z.of_nat (length (delivered (capture_of self w))) /\
    extracted_count l = Z.of_nat (length (sampled k (delivered (capture_of self w)))) /\
    frame_dir l = output_dir self w.
Proof.
  intros Hrun. apply extract_frames_ok in Hrun as (-> & l & Hbody).
  split; [done |]. exists l. split; [done |].
  apply extract_frames_body_ok in Hbody as (_ & fs1 & _ & _ & ->). done.
Qed.

(** C7 (as the code has it). Every run of [extract_frames] opens the frame
    source once.  A run that returns, whether the loop ended at the end of
    the stream or was never entered because the source did not open, calls
    [release] exactly once, after the last frame was written; a run that an
    exception leaves does not call [release]. *)
Theorem extract_frames_release_count self k w w' r :
  extract_frames self k w = (w', r) ->
  exists t,
    w_trace w' = w_trace w ++ t /\
    count is_open t = 1%nat /\
    count is_release t = (if is_ok r then 1%nat else 0%nat) /\
    (is_ok r = true -> exists t0, t = t0 ++ [EvRelease; EvPbarClose] /\
                                  count is_release t0 = 0%nat).
Proof.
  destruct r as [v | e]; intros Hrun.
  - apply extract_frames_ok in Hrun as (_ & l & Hbody).
    apply extract_frames_body_ok in Hbody as (_ & fs1 & _ & -> & _).
    cbn [w_trace]. eexists. split; [reflexivity |].
    rewrite !count_app, count_loop_events_release, count_loop_events_open.
    split; [done |]. split; [done |]. intros _.
    eexists. rewrite !app_assoc. split; [reflexivity |].
    by rewrite !count_app, count_loop_events_release.
  - apply extract_frames_raise, extract_frames_body_raise in Hrun
      as (t & -> & [-> | ->]); eexists; (split; [reflexivity |]); by repeat split.
Qed.


Lemma estimate_is_floor_extracted_is_ceiling_witness :
  exists w' l,
    extract_frames_body example_extractor 3 example_world = (w', Ok l) /\
    num_frames_to_extract l = 3 /\ extracted_count l = 4.
Proof.
  destruct (estimate_is_floor_extracted_is_ceiling example_extractor 3
              example_world 10 ltac:(lia) ltac:(lia) eq_refl eq_refl eq_refl eq_refl)
    as (w' & l & _ & Hb & Hf & _ & He & _).
  exists w', l. split; [exact Hb |]. split; [exact Hf | exact He].
Defined.

(** C4, the claim as stated, fails on the ten-frame clip: the value the call
    returns carries none of the three fields. *)
Lemma extract_frames_returns_no_summary :
  ~ exists v, (extract_frames example_extractor 3 example_world).2 = Ok v /\
              py.has_field v "framesRead" = true /\
              py.has_field v "framesExtracted" = true /\
              py.has_field v "outputDirectory" = true.
Proof.
  intros (v & Hv & Hf & _).
  assert (E : (extract_frames example_extractor 3 example_world).2 = Ok PyNone)
    by (vm_compute; reflexivity).
  rewrite E in Hv. injection Hv as <-. discriminate Hf.
Qed.

Lemma extract_frames_returns_none_witness :
  extract_frames example_extractor 3 example_world =
    ((extract_frames example_extractor 3 example_world).1, Ok PyNone) /\
  exists l,
    extract_frames_body example_extractor 3 example_world =
      ((extract_frames example_extractor 3 example_world).1, Ok l) /\
    frame_count l = 10 /\ extracted_count l = 4 /\
    frame_dir l = mkPath "" ["frames_clip_30.0"].
Proof.
  assert (H2 : extract_frames example_extractor 3 example_world =
               ((extract_frames example_extractor 3 example_world).1, Ok PyNone))
    by (vm_compute; reflexivity).
  split; [exact H2 |].
  destruct (extract_frames_returns_none _ _ _ _ _ H2) as (_ & l & Hb & Hc & He & Hd).
  exists l. split; [exact Hb |]. split; [exact Hc |]. split; [exact He | exact Hd].
Defined.

(** C7, the claim as stated, fails when the name of the output directory is
    taken by a file: [mkdir] raises after the source was opened, and the call
    ends without a single [release]. *)
Lemma extract_frames_blocked_never_releases :
  (extract_frames example_extractor 1 blocked_world).2 = Raise FileExistsError /\
  count is_open (w_trace (extract_frames example_extractor 1 blocked_world).1) = 1%nat /\
  count is_release (w_trace (extract_frames example_extractor 1 blocked_world).1) <> 1%nat.
Proof. vm_compute. repeat split; discriminate. Qed.

Lemma extract_frames_release_count_witness :
  extract_frames example_extractor 3 example_world =
    ((extract_frames example_extractor 3 example_world).1, Ok PyNone) /\
  exists t,
    w_trace (extract_frames example_extractor 3 example_world).1 = [] ++ t /\
    count is_open t = 1%nat /\ count is_release t = 1%nat.
Proof.
  assert (H2 : extract_frames example_extractor 3 example_world =
               ((extract_frames example_extractor 3 example_world).1, Ok PyNone))
    by (vm_compute; reflexivity).
  split; [exact H2 |].
  destruct (extract_frames_release_count _ _ _ _ _ H2) as (t & Ht & Ho & Hr & _).
  exists t. split; [exact Ht |]. split; [exact Ho | exact Hr].
Defined.

End extractor_properties.

(** * Properties of converter.py *)

Section converter_properties.
Import pathlib converter.
Local Open Scope list_scope.

(** ** Cancelling a conversion to the same type *)

(** C5. When the resolved output path, given or derived, has the suffix of
    the input path, [convert] prints its cancellation message and returns:
    no transcode is run and the file store is untouched. *)
Theorem convert_same_suffix_cancels self output_format output_path out w :
  resolve_output_path self output_format output_path = Ok out ->
  suffix (input_path self) = suffix out ->
  convert self output_format output_path w =
    (mkWorld (w_probe w) (w_transcode w) (w_fs w)
       (w_trace w ++
        [EvPrint [Text "Error: Input and output file types are the same (";
                  Text (suffix (input_path self));
                  Text "). Conversion cancelled."]]),
     Ok PyNone) /\
  w_fs (convert self output_format output_path w).1 = w_fs w /\
  List.filter is_run (w_trace (convert self output_format output_path w).1) =
    List.filter is_run (w_trace w).
Proof.
  intros Hres Hsfx.
  assert (E : convert self output_format output_path w =
    (mkWorld (w_probe w) (w_transcode w) (w_fs w)
       (w_trace w ++
        [EvPrint [Text "Error: Input and output file types are the same (";
                  Text (suffix (input_path self));
                  Text "). Conversion cancelled."]]),
     Ok PyNone)).
  { unfold convert, bind at 1, lift. rewrite Hres, <- Hsfx, String.eqb_refl.
    reflexivity. }
  rewrite E. cbn [fst w_fs w_trace]. split; [done |]. split; [done |].
  rewrite List.filter_app. simpl. by rewrite app_nil_r.
Qed.

Lemma convert_same_suffix_cancels_witness :
  resolve_output_path (example_converter "data/clip.mp4") "mp4" None =
    Ok (Path_of_str "data/clip.mp4") /\
  resolve_output_path (example_converter "data/clip.mp4") "avi"
    (Some (inl "out/copy.mp4")) = Ok (Path_of_str "out/copy.mp4") /\
  w_trace (convert (example_converter "data/clip.mp4") "mp4" None example_world).1 =
    [EvPrint [Text "Error: Input and output file types are the same (";
              Text ".mp4"; Text "). Conversion cancelled."]] /\
  w_trace (convert (example_converter "data/clip.mp4") "avi"
             (Some (inl "out/copy.mp4")) example_world).1 =
    [EvPrint [Text "Error: Input and output file types are the same (";
              Text ".mp4"; Text "). Conversion cancelled."]].
Proof.
  assert (R1 : resolve_output_path (example_converter "data/clip.mp4") "mp4" None =
               Ok (Path_of_str "data/clip.mp4")) by reflexivity.
  assert (R2 : resolve_output_path (example_converter "data/clip.mp4") "avi"
                 (Some (inl "out/copy.mp4")) = Ok (Path_of_str "out/copy.mp4"))
    by reflexivity.
  split; [exact R1 |]. split; [exact R2 |]. split.
  - destruct (convert_same_suffix_cancels _ _ _ _ example_world R1 eq_refl)
      as (H & _). rewrite H. reflexivity.
  - destruct (convert_same_suffix_cancels _ _ _ _ example_world R2 eq_refl)
      as (H & _). rewrite H. reflexivity.
Defined.

(** ** The derived output path *)

Lemma with_suffix_replaces p ext :
  suffix p <> "" -> ext <> "" -> has_char "/" ext = false ->
  with_suffix p (String "." ext) =
    Ok (mkPath (root p) (removelast (parts p) ++ [(stem p ++ String "." ext)%string])).
Proof.
  intros Hsfx Hext Hsep. unfold with_suffix.
  assert (Hs : has_char "/" (String "." ext) = false) by (simpl; exact Hsep).
  rewrite Hs. simpl String.prefix. simpl negb.
  replace (String.prefix "" ext) with true by (by destruct ext).
  cbn [andb negb orb].
  assert (Hd : String.eqb (String "." ext) "." = false).
  { apply String.eqb_neq. intros [= E]. done. }
  rewrite Hd.
  assert (Hn : String.eqb (name p) "" = false).
  { apply String.eqb_neq. intros E. apply Hsfx. unfold suffix. by rewrite E. }
  rewrite Hn.
  assert (Ho : String.eqb (suffix p) "" = false) by (by apply String.eqb_neq).
  rewrite Ho. unfold suffix, stem in *.
  by rewrite name_without_suffix.
Qed.

(** [with_suffix] rejects the suffix made from an empty format or from one
    with a "/" in it, whatever the path. *)
Lemma with_suffix_rejects p ext :
  ext = "" \/ has_char "/" ext = true ->
  with_suffix p (String "." ext) = Raise ValueError.
Proof.
  intros [-> | Hsep]; [reflexivity |].
  unfold with_suffix.
  assert (Hs : has_char "/" (String "." ext) = true) by (simpl; exact Hsep).
  by rewrite Hs.
Qed.

(** C6 (as the code has it). For an input path with a suffix and an output
    format that is not empty and has no "/", [convert] without an explicit
    output path resolves to the input's directory and stem followed by a dot
    and the format; when the format has no dot of its own, that is the same
    stem with the format as new suffix, and with a suffix different from the
    input's the transcode is run on exactly that path.  For an empty format
    and for one with a "/" in it, whatever the input path, no output path is
    resolved: [with_suffix] raises [ValueError], and so does [convert],
    before anything else is done. *)
Theorem convert_derives_output_path self output_format :
  (suffix (input_path self) <> "" ->
   suffix (input_path self) <> ("." ++ output_format)%string ->
   output_format <> "" ->
   has_char "/" output_format = false ->
   exists out,
     resolve_output_path self output_format None = Ok out /\
     out = mkPath (root (input_path self))
             (removelast (parts (input_path self)) ++
              [(stem (input_path self) ++ "." ++ output_format)%string]) /\
     parent out = parent (input_path self) /\
     name out = (stem (input_path self) ++ "." ++ output_format)%string /\
     (has_char "." output_format = false ->
      stem out = stem (input_path self) /\
      suffix out = ("." ++ output_format)%string /\
      forall w, exists t,
        w_trace (convert self output_format None w).1 =
        w_trace w ++ EvRun (str (input_path self)) (str out) output_format :: t)) /\
  (output_format = "" \/ has_char "/" output_format = true ->
   resolve_output_path self output_format None = Raise ValueError /\
   forall w, convert self output_format None w = (w, Raise ValueError)).
Proof.
  split.
  { intros Hsfx Hdiff Hfmt Hsep.
  pose proof (with_suffix_replaces (input_path self) output_format Hsfx Hfmt Hsep)
    as Hres.
  eexists. split; [exact Hres |]. split; [reflexivity |].
  assert (Hname : name (mkPath (root (input_path self))
            (removelast (parts (input_path self)) ++
             [(stem (input_path self) ++ String "." output_format)%string])) =
          (stem (input_path self) ++ String "." output_format)%string).
  { unfold name. cbn [parts]. apply List.last_last. }
  split; [| split; [exact Hname |]].
  - unfold parent. cbn [root parts]. by rewrite List.removelast_last.
  - intros Hdot.
    assert (Hst : stem (input_path self) <> "")
      by (apply name_stem_nonempty; exact Hsfx).
    pose proof (suffix_index_replaced _ _ Hst Hfmt Hdot) as Hidx.
    assert (Hstem : stem (mkPath (root (input_path self))
              (removelast (parts (input_path self)) ++
               [(stem (input_path self) ++ String "." output_format)%string])) =
            stem (input_path self)).
    { unfold stem at 1. rewrite Hname. unfold name_stem. rewrite Hidx.
      apply str_take_app. }
    assert (Hsuf : suffix (mkPath (root (input_path self))
              (removelast (parts (input_path self)) ++
               [(stem (input_path self) ++ String "." output_format)%string])) =
            String "." output_format).
    { unfold suffix at 1. rewrite Hname. unfold name_suffix. rewrite Hidx.
      apply str_drop_app. }
    split; [exact Hstem |]. split; [exact Hsuf |].
    intros w. unfold convert, bind at 1, lift, resolve_output_path.
    change ("." ++ output_format)%string with (String "." output_format).
    rewrite Hres.
    rewrite Hsuf.
    assert (Hne : String.eqb (suffix (input_path self)) (String "." output_format) = false)
      by (by apply String.eqb_neq).
    rewrite Hne. unfold ffmpeg_run, bind, log. cbn [w_transcode w_fs w_trace w_probe].
    destruct (w_transcode w _ _ _) as [written [stderr|]];
      unfold print, log, bind, raise, ret, lift, decode_stderr;
      cbn [fst w_trace]; rewrite <- ?app_assoc; eexists; reflexivity. }
  intros Hbad.
  pose proof (with_suffix_rejects (input_path self) output_format Hbad) as Hres.
  split; [exact Hres |].
  intros w. unfold convert, bind, lift, resolve_output_path.
  change ("." ++ output_format)%string with (String "." output_format).
  by rewrite Hres.
Qed.

(** C6, the claim as stated, fails for an output format that is empty or
    has a "/" in it: [clip.mov] has a suffix different from the format, yet
    no output path is resolved and [convert] ends in a [ValueError]. *)
Lemma convert_invalid_format_raises :
  suffix (input_path (example_converter "clip.mov")) = ".mov" /\
  suffix (input_path (example_converter "clip.mov")) <> ("." ++ "")%string /\
  suffix (input_path (example_converter "clip.mov")) <> ("." ++ "mp4/hd")%string /\
  resolve_output_path (example_converter "clip.mov") "" None = Raise ValueError /\
  resolve_output_path (example_converter "clip.mov") "mp4/hd" None = Raise ValueError /\
  convert (example_converter "clip.mov") "" None example_world =
    (example_world, Raise ValueError) /\
  convert (example_converter "clip.mov") "mp4/hd" None example_world =
    (example_world, Raise ValueError).
Proof. repeat split; discriminate. Qed.

Lemma convert_derives_output_path_witness :
  suffix (input_path (example_converter "clip.mov")) <> "" /\
  suffix (input_path (example_converter "clip.mov")) <> ("." ++ "mp4")%string /\
  resolve_output_path (example_converter "clip.mov") "mp4" None =
    Ok (Path_of_str "clip.mp4") /\
  resolve_output_path (example_converter "clip.mov") "mp4/hd" None =
    Raise ValueError.
Proof.
  assert (H1 : suffix (input_path (example_converter "clip.mov")) <> "")
    by discriminate.
  assert (H2 : suffix (input_path (example_converter "clip.mov")) <>
               ("." ++ "mp4")%string) by discriminate.
  split; [exact H1 |]. split; [exact H2 |]. split.
  - destruct (convert_derives_output_path (example_converter "clip.mov") "mp4")
      as [Hgood _].
    destruct (Hgood H1 H2 ltac:(discriminate) eq_refl) as (out & Hres & -> & _).
    rewrite Hres. reflexivity.
  - destruct (convert_derives_output_path (example_converter "clip.mov") "mp4/hd")
      as [_ Hbad].
    destruct (Hbad (or_intror eq_refl)) as [Hres _]. exact Hres.
Defined.

(** ** The simplified probe *)

Lemma getitem_dict items k :
  py.getitem (PyDict items) k =
  match py.assoc k items with Some v => Ok v | None => Raise (KeyError k) end.
Proof. reflexivity. Qed.

Lemma get_or_none_dict items k :
  py.get_or_none (PyDict items) k = Ok (field items k).
Proof.
  unfold py.get_or_none, field. cbn [py.contains rbind]. rewrite getitem_dict.
  destruct (py.assoc k items) as [v|].
  - rewrite bool_decide_eq_true_2 by eauto. done.
  - rewrite bool_decide_eq_false_2 by (by intros [? ?]). done.
Qed.

Lemma setitem_fresh k v items :
  py.assoc k items = None -> py.setitem k v items = items ++ [(k, v)].
Proof.
  induction items as [|[k' v'] items IH]; simpl; [done |].
  destruct (String.eqb k' k); [done |]. intros H. by rewrite IH.
Qed.

(** One stream record: every key it lacks comes out as [None], except
    [width] and [height], which are then left out. *)
Lemma new_stream_dict items :
  new_stream (PyDict items) = Ok (simplified_stream items).
Proof.
  unfold new_stream. rewrite !get_or_none_dict. unfold rbind at 1 2 3 4 5 6 7.
  unfold simplified_stream, entry_if_present. simpl py.contains.
  rewrite !getitem_dict. unfold rbind.
  destruct (py.assoc "width" items) as [wv|], (py.assoc "height" items) as [hv|];
    simpl; try rewrite !bool_decide_eq_true_2 by eauto;
    try rewrite !bool_decide_eq_false_2 by (by intros [? ?]); reflexivity.
Qed.

Lemma new_streams_dicts ss :
  new_streams (map PyDict ss) = Ok (map simplified_stream ss).
Proof.
  induction ss as [|items ss IH]; [done |].
  simpl. rewrite new_stream_dict, IH. done.
Qed.

(** What a successful simplification returns is a dict with exactly the six
    keys of the literal in the source. *)
Lemma get_simplified_probe_keys raw p :
  get_simplified_probe raw = Ok p ->
  exists filename duration size bit_rate creation_time streams,
    p = PyDict [("filename", filename); ("duration", duration); ("size", size);
                ("bit_rate", bit_rate); ("creation_time", creation_time);
                ("streams", PyList streams)].
Proof.
  unfold get_simplified_probe, rbind. intros H.
  repeat case_match; try discriminate H; injection H as <-; eauto 10.
Qed.

(** C1 (as the code has it). On a raw document whose [format] section is a
    mapping with [filename], [duration], [size], [bit_rate] and a [tags]
    mapping, and whose [streams] is a list of mappings, the simplification
    succeeds whichever of the other keys are there: a missing
    [creation_time] and every missing per-stream key comes out as [None],
    and a missing [width] or [height] is left out of the record.  Without
    the [format] key it raises [KeyError]; without the [streams] key it
    raises too, [KeyError] when the format section is as above; and it
    raises [KeyError] when the format section is a mapping without
    [filename], [duration], [size] or [bit_rate]. *)
Theorem get_simplified_probe_on_shaped_input :
  (forall raw fmt tags ss filename duration size bit_rate,
     py.getitem raw "format" = Ok (PyDict fmt) ->
     py.assoc "filename" fmt = Some filename ->
     py.assoc "duration" fmt = Some duration ->
     py.assoc "size" fmt = Some size ->
     py.assoc "bit_rate" fmt = Some bit_rate ->
     py.assoc "tags" fmt = Some (PyDict tags) ->
     (py.getitem raw "streams" = Ok (PyList (map PyDict ss)) ->
      get_simplified_probe raw =
        Ok (PyDict [("filename", filename); ("duration", duration);
                    ("size", size); ("bit_rate", bit_rate);
                    ("creation_time", field tags "creation_time");
                    ("streams", PyList (map simplified_stream ss))])) /\
     (py.getitem raw "streams" = Raise (KeyError "streams") ->
      get_simplified_probe raw = Raise (KeyError "streams"))) /\
  (forall items,
     py.assoc "format" items = None ->
     get_simplified_probe (PyDict items) = Raise (KeyError "format")) /\
  (forall items,
     py.assoc "streams" items = None ->
     exists e, get_simplified_probe (PyDict items) = Raise e) /\
  (forall raw fmt key,
     py.getitem raw "format" = Ok (PyDict fmt) ->
     key ∈ ["filename"; "duration"; "size"; "bit_rate"] ->
     py.assoc key fmt = None ->
     exists missing, get_simplified_probe raw = Raise (KeyError missing)).
Proof.
  split; [| split; [| split]].
  - intros raw fmt tags ss filename duration size bit_rate
      Hfmt Hfile Hdur Hsize Hrate Htags.
    assert (Hct : (let? present := py.contains "creation_time" (PyDict tags) in
                   if present then py.getitem (PyDict tags) "creation_time"
                   else Ok PyNone) = Ok (field tags "creation_time"))
      by apply get_or_none_dict.
    split; intros Hstreams.
    + unfold get_simplified_probe. rewrite Hfmt, Hstreams. cbn [rbind].
      rewrite !getitem_dict, Hfile, Hdur, Hsize, Hrate, Htags. cbn [rbind].
      unfold rbind at 1 in Hct.
      destruct (py.contains "creation_time" (PyDict tags)) as [[|]|] eqn:Hc;
        try discriminate Hct; cbn [rbind].
      * rewrite Hct. cbn [py.iter rbind]. by rewrite new_streams_dicts.
      * injection Hct as <-. cbn [py.iter rbind]. by rewrite new_streams_dicts.
    + unfold get_simplified_probe. rewrite Hfmt, Hstreams. cbn [rbind].
      rewrite !getitem_dict, Hfile, Hdur, Hsize, Hrate, Htags. cbn [rbind].
      unfold rbind at 1 in Hct.
      destruct (py.contains "creation_time" (PyDict tags)) as [[|]|] eqn:Hc;
        try discriminate Hct; cbn [rbind]; [by rewrite Hct | done].
  - intros items Hnone. unfold get_simplified_probe.
    rewrite getitem_dict, Hnone. reflexivity.
  - intros items Hnone. unfold get_simplified_probe.
    rewrite (getitem_dict items "streams"), Hnone. unfold rbind.
    repeat case_match; eauto.
  - intros raw fmt key Hfmt Hkey Hnone. unfold get_simplified_probe.
    rewrite Hfmt. cbn [rbind]. rewrite !getitem_dict. unfold rbind.
    repeat (apply elem_of_cons in Hkey as [-> | Hkey]);
      [| | | | by apply elem_of_nil in Hkey];
      rewrite Hnone; repeat case_match; simplify_eq; eauto.
Qed.

(** C1, the claim as stated, fails on a document that has both mandatory
    keys but whose format section carries no [tags]. *)
Lemma get_simplified_probe_untagged_raises :
  (exists f, py.getitem untagged_raw "format" = Ok f) /\
  (exists s, py.getitem untagged_raw "streams" = Ok s) /\
  get_simplified_probe untagged_raw = Raise (KeyError "tags").
Proof. repeat split; eexists; reflexivity. Qed.

Lemma get_simplified_probe_on_shaped_input_witness :
  py.getitem example_raw "format" =
    Ok (PyDict (format_fields ++ [("tags", PyDict [("major_brand", PyStr "isom")])])) /\
  py.getitem example_raw "streams" =
    Ok (PyList (map PyDict [video_stream; audio_stream])) /\
  get_simplified_probe example_raw =
    Ok (PyDict
          [("filename", PyStr "clip.mp4"); ("duration", PyStr "10.000000");
           ("size", PyStr "1160000"); ("bit_rate", PyStr "928000");
           ("creation_time", PyNone);
           ("streams",
            PyList
              [PyDict [("codec_name", PyStr "h264"); ("codec_type", PyStr "video");
                       ("duration", PyStr "10.000000"); ("bit_rate", PyStr "800000");
                       ("frame_rate", PyStr "30/1"); ("color_space", PyNone);
                       ("color_range", PyNone); ("width", PyInt 1920);
                       ("height", PyInt 1080)];
               PyDict [("codec_name", PyStr "aac"); ("codec_type", PyStr "audio");
                       ("duration", PyStr "10.000000"); ("bit_rate", PyStr "128000");
                       ("frame_rate", PyStr "0/0"); ("color_space", PyNone);
                       ("color_range", PyNone)]])]).
Proof.
  assert (Hf : py.getitem example_raw "format" =
    Ok (PyDict (format_fields ++ [("tags", PyDict [("major_brand", PyStr "isom")])])))
    by reflexivity.
  assert (Hs : py.getitem example_raw "streams" =
    Ok (PyList (map PyDict [video_stream; audio_stream]))) by reflexivity.
  split; [exact Hf |]. split; [exact Hs |].
  destruct get_simplified_probe_on_shaped_input as (Hshaped & _).
  destruct (Hshaped example_raw _ _ [video_stream; audio_stream] _ _ _ _
              Hf eq_refl eq_refl eq_refl eq_refl eq_refl) as (Hok & _).
  rewrite (Hok Hs). reflexivity.
Defined.

(** ** Validation *)

(** No simplified probe has a [format] key, so the first line of
    [validate_file] raises on every converter that was constructed. *)
Lemma validate_file_raises_on_simplified raw p ip w :
  get_simplified_probe raw = Ok p ->
  validate_file (mkVideoConverter ip raw p) w = (w, Raise (KeyError "format")).
Proof.
  intros H. apply get_simplified_probe_keys in H
    as (filename & duration & size & bit_rate & creation_time & streams & ->).
  reflexivity.
Qed.

(** C2 (the code departs from its docstring). The converter constructed for
    an mp4 file with a video stream: the container name is an accepted one
    and the first stream is a video stream, yet [validate_file] raises
    [KeyError] instead of returning [True]. *)
Theorem validate_file_raises_on_valid_file :
  exists self w1,
    VideoConverter_init (Path_of_str "clip.mp4") example_world = (w1, Ok self) /\
    (let? f := py.getitem (probe_raw self) "format" in py.getitem f "format_name") =
      Ok (PyStr "mov,mp4,m4a,3gp,3g2,mj2") /\
    In "mov,mp4,m4a,3gp,3g2,mj2"%string accepted_formats /\
    (let? streams := py.getitem (probe self) "streams" in
     let? first := py.getitem0 streams in
     py.getitem first "codec_type") = Ok (PyStr "video") /\
    validate_file self w1 = (w1, Raise (KeyError "format")).
Proof.
  eexists. eexists. split; [vm_compute; reflexivity |].
  split; [reflexivity |]. split; [simpl; auto |]. split; reflexivity.
Qed.

(** ** Printing the metadata *)

Lemma bind_ok_inv {W A B} (m : M W A) (k : A -> M W B) w w' b :
  bind m k w = (w', Ok b) ->
  exists w1 a, m w = (w1, Ok a) /\ k a w1 = (w', Ok b).
Proof.
  unfold bind. destruct (m w) as [w1 [a|e]]; [| done]. intros H. eauto.
Qed.

Lemma lift_ok_inv {W A} (r : result A) (w w' : W) a :
  lift r w = (w', Ok a) -> r = Ok a /\ w' = w.
Proof. unfold lift. by intros [= <- ->]. Qed.

Lemma rbind_ok_inv {A B} (r : result A) (k : A -> result B) b :
  rbind r k = Ok b -> exists a, r = Ok a /\ k a = Ok b.
Proof. destruct r as [a|e]; [| done]. simpl. eauto. Qed.

(** C9. [print_metadata] completes only if the first stream record of the
    probe has both a [width] and a [height]; and there is a simplified probe
    with a non-empty stream list, the one of a file whose audio stream comes
    first, on which it raises [KeyError] for [width]. *)
Theorem print_metadata_needs_dimensions :
  (forall self w w',
     print_metadata self w = (w', Ok tt) ->
     exists streams first width height,
       py.getitem (probe self) "streams" = Ok streams /\
       py.getitem0 streams = Ok first /\
       py.getitem first "width" = Ok width /\
       py.getitem first "height" = Ok height) /\
  (exists p first rest,
     get_simplified_probe audio_first_raw = Ok p /\
     py.getitem p "streams" = Ok (PyList (first :: rest)) /\
     py.has_field first "width" = false /\
     forall ip w, exists w',
       print_metadata (mkVideoConverter ip audio_first_raw p) w =
         (w', Raise (KeyError "width"))).
Proof.
  split.
  - intros self w w' H. unfold print_metadata in H.
    apply bind_ok_inv in H as (w1 & duration & _ & H).
    apply bind_ok_inv in H as (w2 & [] & _ & H).
    apply bind_ok_inv in H as (w3 & frame_rate & _ & H).
    apply bind_ok_inv in H as (w4 & [] & _ & H).
    apply bind_ok_inv in H as (w5 & width & Hw & H).
    apply bind_ok_inv in H as (w6 & height & Hh & _).
    apply lift_ok_inv in Hw as [Hw _]. apply lift_ok_inv in Hh as [Hh _].
    apply rbind_ok_inv in Hw as (streams & Hs & Hw).
    apply rbind_ok_inv in Hw as (first & Hf & Hw).
    apply rbind_ok_inv in Hh as (streams' & Hs' & Hh).
    rewrite Hs in Hs'. injection Hs' as <-.
    apply rbind_ok_inv in Hh as (first' & Hf' & Hh).
    rewrite Hf in Hf'. injection Hf' as <-.
    by exists streams, first, width, height.
  - eexists. eexists. eexists. split; [reflexivity |].
    split; [reflexivity |]. split; [reflexivity |].
    intros ip w. eexists. reflexivity.
Qed.

Lemma print_metadata_needs_dimensions_witness :
  (print_metadata (example_converter "clip.mp4") example_world).2 = Ok tt /\
  exists streams first width height,
    py.getitem (probe (example_converter "clip.mp4")) "streams" = Ok streams /\
    py.getitem0 streams = Ok first /\
    py.getitem first "width" = Ok width /\
    py.getitem first "height" = Ok height.
Proof.
  assert (H : print_metadata (example_converter "clip.mp4") example_world =
              ((print_metadata (example_converter "clip.mp4") example_world).1, Ok tt))
    by reflexivity.
  split; [reflexivity |].
  destruct print_metadata_needs_dimensions as (Hneeds & _).
  exact (Hneeds _ _ _ H).
Defined.

End converter_properties.

(** * Further properties of extractor.py *)

Section extractor_more.
Import pathlib extractor.
Local Open Scope list_scope.

Lemma has_char_app c (a b : string) :
  has_char c (a ++ b)%string = has_char c a || has_char c b.
Proof.
  induction a as [|x a IH]; [done |].
  rewrite str_app_cons. simpl. by rewrite IH, orb_assoc.
Qed.

(** ** When a run completes *)

Lemma free_in_insert_dir fs r key d :
  fs !! key = None ->
  free_in (<[key := Dir]> fs) r d = free_in fs r d.
Proof.
  intros Hnone. unfold free_in.
  destruct (decide (key = str (mkPath r d))) as [-> | Hne].
  - by rewrite lookup_insert_eq, Hnone.
  - by rewrite lookup_insert_ne.
Qed.

Lemma forallb_free_in_insert_dir fs r key dirs :
  fs !! key = None ->
  forallb (free_in (<[key := Dir]> fs) r) dirs = forallb (free_in fs r) dirs.
Proof.
  intros Hnone. induction dirs as [|d rest IH]; simpl; [done |].
  by rewrite free_in_insert_dir, IH.
Qed.

Lemma mkdir_each_ok_inv r dirs w w' :
  mkdir_each r dirs w = (w', Ok tt) ->
  forallb (free_in (w_fs w) r) dirs = true.
Proof.
  revert w. induction dirs as [|d rest IH]; intros w; simpl; [done |].
  unfold free_in at 1.
  destruct (w_fs w !! str (mkPath r d)) as [[|img|e0]|] eqn:E.
  - intros H. by rewrite (IH _ H).
  - done.
  - done.
  - unfold bind, set_fs. intros H. apply IH in H. cbn [w_fs] in H.
    simpl. rewrite <- H. symmetry. by apply forallb_free_in_insert_dir.
Qed.

(** The errors [mkdir] can end in: the two for a file in the way, or the one
    of a refusal that stood at one of the directories to be made. *)
Lemma mkdir_each_raises r dirs w w' e :
  mkdir_each r dirs w = (w', Raise e) ->
  e = FileExistsError \/ e = NotADirectoryError \/
  exists d, d ∈ dirs /\ w_fs w !! str (mkPath r d) = Some (Refused e).
Proof.
  revert w. induction dirs as [|d rest IH]; intros w; simpl; [done |].
  destruct (w_fs w !! str (mkPath r d)) as [[|img|e0]|] eqn:E.
  - intros H. apply IH in H as [H | [H | (d' & Hd' & H)]]; auto.
    right. right. exists d'. split; [apply elem_of_cons; by right | done].
  - destruct rest; intros [= <- <-]; auto.
  - intros [= <- <-]. right. right. exists d.
    split; [apply elem_of_cons; by left | done].
  - unfold bind, set_fs. intros H.
    apply IH in H as [H | [H | (d' & Hd' & H)]]; auto.
    right. right. exists d'. split; [apply elem_of_cons; by right |].
    cbn [w_fs] in H.
    destruct (decide (str (mkPath r d) = str (mkPath r d'))) as [Heq | Hne].
    + rewrite <- Heq, lookup_insert_eq in H. done.
    + by rewrite lookup_insert_ne in H.
Qed.

(** X1. How [extract_frames] fails.  A zero stride raises
    [ZeroDivisionError] right after the source was opened, before any
    directory is made.  With a non-zero stride, a regular file or a refusal
    of the system where the output directory or one of its ancestors is to
    be makes [mkdir] raise: [FileExistsError] or [NotADirectoryError] for a
    file, the system's own error for a refusal.  So a call that returns had
    a non-zero stride and nothing of the kind in its way; and a call that
    raises has handed no frame to [cv2.imwrite]. *)
Theorem extract_frames_failure_modes self k w w' r :
  extract_frames self k w = (w', r) ->
  (is_ok r = true -> k <> 0 /\ dir_free (w_fs w) (output_dir self w) = true) /\
  (k = 0 ->
   r = Raise ZeroDivisionError /\
   w' = mkWorld (w_video w) (w_write w) (w_fs w)
          (w_trace w ++ [EvOpen (str (video_path self))])) /\
  (k <> 0 -> dir_free (w_fs w) (output_dir self w) = false ->
   exists e,
     r = Raise e /\
     w_trace w' =
       w_trace w ++
       [EvOpen (str (video_path self)); EvMkdir (str (output_dir self w))] /\
     (e = FileExistsError \/ e = NotADirectoryError \/
      exists d, d ∈ prefixes_from [] (parts (output_dir self w)) /\
                w_fs w !! str (mkPath (root (output_dir self w)) d) =
                Some (Refused e))) /\
  (is_ok r = false -> imwrites (w_trace w') = imwrites (w_trace w)).
Proof.
  intros Hrun.
  assert (Hzero : k = 0 ->
    r = Raise ZeroDivisionError /\
    w' = mkWorld (w_video w) (w_write w) (w_fs w)
           (w_trace w ++ [EvOpen (str (video_path self))])).
  { intros ->. unfold extract_frames, extract_frames_body, VideoCapture_open in Hrun.
    cbn in Hrun. by injection Hrun as <- <-. }
  assert (Hfree : is_ok r = true -> dir_free (w_fs w) (output_dir self w) = true).
  { destruct r as [v|e]; [intros _ | done].
    apply extract_frames_ok in Hrun as (_ & l & Hbody).
    assert (Hk : k <> 0) by (by apply extract_frames_body_ok in Hbody as (? & _)).
    rewrite (extract_frames_body_unfold self k w Hk) in Hbody.
    destruct (mkdir_each _ _ _) as [w1 [[]|e1]] eqn:Hmk; [| done].
    apply mkdir_each_ok_inv in Hmk. exact Hmk. }
  split; [| split; [exact Hzero | split]].
  - intros Hok. split; [| by apply Hfree].
    intros ->. destruct (Hzero eq_refl) as [-> _]. done.
  - intros Hk Hnot. destruct r as [v|e].
    { rewrite Hfree in Hnot by done. done. }
    apply extract_frames_raise in Hrun.
    rewrite (extract_frames_body_unfold self k w Hk) in Hrun.
    destruct (mkdir_each _ _ _) as [w1 [[]|e1]] eqn:Hmk; [done |].
    injection Hrun as <- <-. exists e1. split; [done |].
    pose proof (mkdir_each_inv _ _ _ _ _ Hmk) as (_ & Ht & _).
    cbn [w_trace] in Ht. split; [by rewrite Ht, <- app_assoc |].
    apply mkdir_each_raises in Hmk. exact Hmk.
  - destruct r as [v|e]; [done |]. intros _.
    apply extract_frames_raise, extract_frames_body_raise in Hrun
      as (t & -> & [-> | ->]); rewrite imwrites_app; simpl; by rewrite app_nil_r.
Qed.

Lemma extract_frames_failure_modes_witness :
  exists w',
    extract_frames example_extractor 0 example_world =
      (w', Raise ZeroDivisionError) /\
    w_trace w' = [EvOpen "data/clip.mp4"] /\ w_fs w' = w_fs example_world.
Proof.
  eexists. split; [reflexivity |].
  destruct (extract_frames_failure_modes example_extractor 0 example_world _ _ eq_refl)
    as (_ & Hzero & _).
  destruct (Hzero eq_refl) as [_ Hw]. split; reflexivity.
Defined.

(** ** What a completed run leaves behind *)

Lemma sampled_from_one c frames : sampled_from 1 c frames = enumerate_from c frames.
Proof.
  revert c. induction frames as [|f rest IH]; intros c; [done |].
  rewrite sampled_from_cons. simpl. rewrite IH.
  destruct (decide (c mod 1 = 0)) as [_ | Hn]; [done |].
  by rewrite Z.mod_1_r in Hn.
Qed.

(** X2. With stride 1 and nothing in the way of the output directory every
    delivered frame is handed to [cv2.imwrite], frame [i] as [<i>.jpeg], in
    order, and is in its file afterwards wherever the write could be done
    (elsewhere the store is as it was); the two counters end equal to the
    number of frames. *)
Theorem extract_frames_stride_one_keeps_every_frame self w :
  dir_free (w_fs w) (output_dir self w) = true ->
  let frames := delivered (capture_of self w) in
  let dir := output_dir self w in
  exists w' l,
    extract_frames self 1 w = (w', Ok PyNone) /\
    extract_frames_body self 1 w = (w', Ok l) /\
    imwrites (w_trace w') =
      imwrites (w_trace w) ++
      map (fun p => (str (joinpath dir (pretty (fst p) ++ ".jpeg")%string), snd p))
          (enumerate_from 0 frames) /\
    frame_count l = Z.of_nat (length frames) /\
    extracted_count l = Z.of_nat (length frames) /\
    (forall (i : nat) f, frames !! i = Some f ->
       w_fs w' !! str (joinpath dir (pretty (Z.of_nat i) ++ ".jpeg")%string) =
       if can_write (w_write w) (w_fs w)
            (str (joinpath dir (pretty (Z.of_nat i) ++ ".jpeg")%string)) f
       then Some (File f)
       else w_fs w !! str (joinpath dir (pretty (Z.of_nat i) ++ ".jpeg")%string)).
Proof.
  intros Hfree frames dir.
  destruct (extract_frames_completes self 1 w ltac:(lia) Hfree)
    as (w' & l & Hbody & Hrun).
  exists w', l. split; [exact Hrun |]. split; [exact Hbody |].
  pose proof (fun i f => extract_frames_body_store self 1 w w' l i f Hbody) as Hstore.
  apply extract_frames_body_ok in Hbody as (_ & fs1 & Hfs1 & Hw' & Hl).
  fold frames dir in Hw', Hl, Hstore. unfold sampled in Hw', Hl, Hstore.
  rewrite sampled_from_one in Hw', Hl.
  split; [| split; [| split]].
  - rewrite Hw'. cbn [w_trace]. rewrite !imwrites_app, imwrites_loop_events.
    simpl. by rewrite app_nil_r.
  - by rewrite Hl.
  - rewrite Hl. cbn [extracted_count]. by rewrite enumerate_from_length.
  - intros i f Hi. apply (Hstore (Z.of_nat i) f).
    rewrite sampled_from_one. apply elem_of_enumerate_from. split; [lia |].
    by rewrite Z.sub_0_r, Nat2Z.id.
Qed.

Lemma extract_frames_stride_one_keeps_every_frame_witness :
  exists w',
    extract_frames example_extractor 1 example_world = (w', Ok PyNone) /\
    length (imwrites (w_trace w')) = 10%nat.
Proof.
  destruct (extract_frames_stride_one_keeps_every_frame example_extractor
              example_world eq_refl) as (w' & l & Hrun & _ & Hw & _).
  exists w'. split; [exact Hrun |]. rewrite Hw. reflexivity.
Defined.

(** X3. When the source could not be opened the loop is not entered: with a
    non-zero stride and the output directory creatable the call still makes
    the directory, opens and closes the progress bar and releases the source
    once, writes no frame, and returns [None]. *)
Theorem extract_frames_unopened_source self k w :
  k <> 0 ->
  dir_free (w_fs w) (output_dir self w) = true ->
  cap_opened (capture_of self w) = false ->
  exists w',
    extract_frames self k w = (w', Ok PyNone) /\
    w_trace w' =
      w_trace w ++
      [EvOpen (str (video_path self)); EvMkdir (str (output_dir self w));
       EvPbar (cap_frame_count (capture_of self w) / k);
       EvRelease; EvPbarClose] /\
    extract_frames_body self k w =
      (w', Ok (mkLocals (cap_frame_count (capture_of self w))
                 (cap_frame_count (capture_of self w) / k)
                 (output_dir self w) 0 0)).
Proof.
  intros Hk Hfree Hclosed.
  destruct (extract_frames_completes self k w Hk Hfree) as (w' & l & Hbody & Hrun).
  exists w'. split; [exact Hrun |].
  pose proof Hbody as Hb.
  apply extract_frames_body_ok in Hb as (_ & fs1 & _ & Hw' & Hl).
  unfold delivered in Hw', Hl. rewrite Hclosed in Hw', Hl.
  split.
  - rewrite Hw'. reflexivity.
  - rewrite Hbody, Hl. reflexivity.
Qed.

Lemma extract_frames_unopened_source_witness :
  exists w',
    extract_frames example_extractor 2 unopened_world = (w', Ok PyNone) /\
    w_trace w' =
      [EvOpen "data/clip.mp4"; EvMkdir "frames_clip_0.0"; EvPbar 0;
       EvRelease; EvPbarClose].
Proof.
  destruct (extract_frames_unopened_source example_extractor 2 unopened_world
              ltac:(lia) ltac:(reflexivity) ltac:(reflexivity))
    as (w' & Hrun & Ht & _).
  exists w'. split; [exact Hrun |]. rewrite Ht. reflexivity.
Defined.

Lemma extract_frames_body_raise_store self k w w' e :
  extract_frames_body self k w = (w', Raise e) ->
  forall file img, w_fs w' !! file = Some (File img) <->
                   w_fs w !! file = Some (File img).
Proof.
  unfold extract_frames_body, VideoCapture_open.
  unfold bind at 1. unfold bind at 1. unfold log at 1. cbn [fst snd w_video].
  unfold bind at 1, lift at 1, floordiv.
  destruct (Z.eqb_spec k 0) as [|Hk].
  { by intros [= <- <-]. }
  unfold bind at 1.
  fold (capture_of self w). fold (output_dir self w).
  destruct (mkdir (output_dir self w) _) as [w1 [[]|e1]] eqn:Hmk.
  - unfold bind at 1, log at 1. unfold bind at 1.
    destruct (cap_opened (capture_of self w)).
    + rewrite read_loop_spec by done.
      unfold release, log, bind, ret. cbn. done.
    + unfold release, log, bind, ret. cbn. done.
  - apply mkdir_inv in Hmk as (_ & _ & Hf). intros [= <- <-]. exact Hf.
Qed.

(** X4. Whatever the outcome, [extract_frames] leaves every file that was in
    the store alone, unless its path is that of a frame file [<i>.jpeg] of
    the output directory. *)
Theorem extract_frames_keeps_other_files self k w w' r file img :
  extract_frames self k w = (w', r) ->
  w_fs w !! file = Some (File img) ->
  (forall i : Z,
     file <> str (joinpath (output_dir self w) (pretty i ++ ".jpeg")%string)) ->
  w_fs w' !! file = Some (File img).
Proof.
  intros Hrun Hfile Hother. destruct r as [v|e].
  - apply extract_frames_ok in Hrun as (_ & l & Hbody).
    apply extract_frames_body_ok in Hbody as (_ & fs1 & Hfs1 & -> & _).
    cbn [w_fs]. rewrite store_all_keeps; [by apply Hfs1 |].
    intros Hin. apply list_elem_of_fmap in Hin as ([f0 img0] & -> & Hin).
    apply elem_of_writes in Hin as (i & Hi & _). simpl in Hother.
    by apply (Hother i).
  - apply extract_frames_raise in Hrun.
    by apply (extract_frames_body_raise_store _ _ _ _ _ Hrun).
Qed.

Lemma extract_frames_keeps_other_files_witness :
  exists w',
    extract_frames example_extractor 3 notes_world = (w', Ok PyNone) /\
    w_fs w' !! "frames_clip_30.0/notes.txt"%string = Some (File [Byte.x61]).
Proof.
  eexists. split; [vm_compute; reflexivity |].
  eapply (extract_frames_keeps_other_files example_extractor 3 notes_world).
  - vm_compute. reflexivity.
  - reflexivity.
  - intros i H.
    destruct (str_joinpath (output_dir example_extractor notes_world)) as [pre Hpre].
    pose proof (Hpre "notes.txt"%string) as Hn. vm_compute in Hn.
    rewrite Hpre in H. rewrite Hn in H.
    apply (inj (String.append pre)) in H.
    apply (f_equal (has_char "g")) in H.
    rewrite has_char_app, orb_comm in H. discriminate H.
Defined.

(** ** Strides below zero *)

Lemma sampled_from_opp k c frames :
  sampled_from (- k) c frames = sampled_from k c frames.
Proof.
  destruct (decide (k = 0)) as [-> | Hk]; [done |].
  revert c. induction frames as [|f rest IH]; intros c; [done |].
  rewrite !sampled_from_cons, IH.
  destruct (decide (c mod - k = 0)) as [H1 | H1],
           (decide (c mod k = 0)) as [H2 | H2]; try done; exfalso.
  - apply H2. apply Z.mod_divide; [done |].
    apply Z.divide_opp_l. apply Z.mod_divide; [lia | done].
  - apply H1. apply Z.mod_divide; [lia |].
    apply Z.divide_opp_l. apply Z.mod_divide; done.
Qed.

(** X5. A negative stride [k] is accepted: the frames written are those a
    stride of [-k] would give (index a multiple of [|k|]), their number is
    the ceiling of the frame count over [|k|], while the estimate handed to
    the progress bar, [total_frames // k], is zero or negative for a source
    that reports a non-negative frame count. *)
Theorem extract_frames_negative_stride self k w :
  k <= -1 ->
  dir_free (w_fs w) (output_dir self w) = true ->
  let frames := delivered (capture_of self w) in
  let dir := output_dir self w in
  exists w' l,
    extract_frames self k w = (w', Ok PyNone) /\
    extract_frames_body self k w = (w', Ok l) /\
    imwrites (w_trace w') =
      imwrites (w_trace w) ++
      map (fun p => (str (joinpath dir (pretty (fst p) ++ ".jpeg")%string), snd p))
          (sampled (- k) frames) /\
    extracted_count l = (Z.of_nat (length frames) + (- k) - 1) / (- k) /\
    num_frames_to_extract l = cap_frame_count (capture_of self w) / k /\
    (0 <= cap_frame_count (capture_of self w) -> num_frames_to_extract l <= 0).
Proof.
  intros Hk Hfree frames dir.
  destruct (extract_frames_completes self k w ltac:(lia) Hfree)
    as (w' & l & Hbody & Hrun).
  exists w', l. split; [exact Hrun |]. split; [exact Hbody |].
  apply extract_frames_body_ok in Hbody as (_ & fs1 & _ & Hw' & Hl).
  fold frames dir in Hw', Hl.
  assert (Hs : sampled k frames = sampled (- k) frames)
    by (unfold sampled; by rewrite sampled_from_opp).
  rewrite Hs in Hw', Hl.
  split; [| split; [| split]].
  - rewrite Hw'. cbn [w_trace]. rewrite !imwrites_app, imwrites_loop_events.
    simpl. by rewrite app_nil_r.
  - rewrite Hl. cbn [extracted_count]. apply sampled_length. lia.
  - by rewrite Hl.
  - intros Hn. rewrite Hl. cbn [num_frames_to_extract].
    pose proof (Z.div_mod (cap_frame_count (capture_of self w)) k ltac:(lia)) as Hdm.
    pose proof (Z.mod_neg_bound (cap_frame_count (capture_of self w)) k ltac:(lia)) as Hr.
    nia.
Qed.

Lemma extract_frames_negative_stride_witness :
  exists w' l,
    extract_frames_body example_extractor (-3) example_world = (w', Ok l) /\
    map fst (imwrites (w_trace w')) =
      ["frames_clip_30.0/0.jpeg"; "frames_clip_30.0/3.jpeg";
       "frames_clip_30.0/6.jpeg"; "frames_clip_30.0/9.jpeg"]%string /\
    extracted_count l = 4 /\ num_frames_to_extract l = -4.
Proof.
  destruct (extract_frames_negative_stride example_extractor (-3) example_world
              ltac:(lia) ltac:(reflexivity))
    as (w' & l & _ & Hb & Hw & He & Hn & _).
  exists w', l. split; [exact Hb |]. split; [rewrite Hw; reflexivity |].
  split; [rewrite He; reflexivity | rewrite Hn; reflexivity].
Defined.

(** ** Running twice *)

(** X6. A second run on what a completed run left behind completes too: the
    directory is there already, the same calls are made again, and the file
    store ends exactly as the first run left it. *)
Theorem extract_frames_second_run self k w w1 v :
  extract_frames self k w = (w1, Ok v) ->
  exists w2 t,
    extract_frames self k w1 = (w2, Ok PyNone) /\
    w_trace w1 = w_trace w ++ t /\
    w_trace w2 = w_trace w1 ++ t /\
    w_fs w2 = w_fs w1.
Proof.
  intros Hrun. apply extract_frames_ok in Hrun as (_ & l & Hbody).
  assert (Hk : k <> 0) by (by apply extract_frames_body_ok in Hbody as (? & _)).
  rewrite (extract_frames_body_unfold self k w Hk) in Hbody.
  destruct (mkdir_each _ _ _) as [wm [[]|e]] eqn:Hmk; [| done].
  pose proof (mkdir_each_inv _ _ _ _ _ Hmk) as (Hv & Ht & _).
  pose proof (mkdir_each_made _ _ _ _ Hmk) as Hdirs.
  cbn [w_video w_trace] in Hv, Ht.
  injection Hbody as Hw1 _.
  set (dir := output_dir self w) in *.
  set (cap := capture_of self w) in *.
  set (ws := writes dir (sampled k (delivered cap))) in *.
  assert (Hcap : capture_of self w1 = cap).
  { unfold capture_of. rewrite <- Hw1. cbn [w_video]. by rewrite Hv. }
  assert (Hdir : output_dir self w1 = dir).
  { unfold output_dir. by rewrite Hcap. }
  assert (Hnd : NoDup (map fst ws))
    by apply writes_files, sampled_from_indices.
  assert (Hthere : forall d, d ∈ prefixes_from [] (parts dir) ->
            w_fs w1 !! str (mkPath (root dir) d) = Some Dir).
  { intros d Hd. rewrite <- Hw1. cbn [w_fs]. rewrite store_all_keeps.
    - by apply Hdirs.
    - intros Hin. apply list_elem_of_fmap in Hin as ([f img] & Hf & Hin).
      apply elem_of_writes in Hin as (i & Hi & _). simpl in Hf.
      rewrite Hi in Hf. unfold frame_file in Hf.
      exact (prefix_is_no_frame_file dir d _ Hd Hf). }
  pose proof (extract_frames_body_unfold self k w1 Hk) as Hbody2.
  rewrite Hcap, Hdir in Hbody2. fold ws in Hbody2.
  rewrite mkdir_each_noop in Hbody2 by exact Hthere.
  cbn [w_video w_fs w_trace] in Hbody2.
  eexists. exists ([EvOpen (str (video_path self)); EvMkdir (str dir);
                    EvPbar (cap_frame_count cap / k)] ++
                   loop_events ws ++ [EvRelease; EvPbarClose]).
  split.
  - unfold extract_frames, bind, ret. rewrite Hbody2. reflexivity.
  - cbn [w_trace w_fs]. split; [| split].
    + rewrite <- Hw1. cbn [w_trace]. rewrite Ht. by rewrite <- !app_assoc.
    + by rewrite <- !app_assoc.
    + rewrite <- Hw1. cbn [w_fs]. by apply store_all_twice.
Qed.

Lemma extract_frames_second_run_witness :
  exists w1 w2,
    extract_frames example_extractor 3 example_world = (w1, Ok PyNone) /\
    extract_frames example_extractor 3 w1 = (w2, Ok PyNone) /\
    w_fs w2 = w_fs w1.
Proof.
  assert (H1 : extract_frames example_extractor 3 example_world =
               ((extract_frames example_extractor 3 example_world).1, Ok PyNone))
    by (vm_compute; reflexivity).
  destruct (extract_frames_second_run _ _ _ _ _ H1) as (w2 & t & H2 & _ & _ & Hfs).
  eexists. exists w2. split; [exact H1 |]. split; [exact H2 | exact Hfs].
Defined.

(** ** Which paths are accepted, and where the frames go *)

(** X7. [FrameExtractor] accepts exactly the paths whose last component is a
    non-empty text followed by [.mp4], in lower case: a name with more dots
    such as [a.tar.mp4] passes, the bare name [.mp4] does not. *)
Theorem FrameExtractor_init_accepts_names video_path w :
  is_ok (FrameExtractor_init video_path w).2 = true <->
  exists st, st <> ""%string /\ name video_path = (st ++ ".mp4")%string.
Proof.
  unfold FrameExtractor_init.
  destruct (String.eqb_spec (suffix video_path) ".mp4") as [E | E]; simpl; split.
  - intros _. exists (stem video_path). split.
    + apply name_stem_nonempty. fold (suffix video_path). by rewrite E.
    + rewrite <- E. symmetry. apply name_stem_suffix.
  - done.
  - done.
  - intros (st & Hst & Hname). exfalso. apply E.
    unfold suffix, name_suffix. rewrite Hname.
    change (st ++ ".mp4")%string with (st ++ String "." "mp4")%string.
    rewrite suffix_index_replaced by done. apply str_drop_app.
Qed.

Lemma has_char_str_take c n (s : string) :
  has_char c s = false -> has_char c (str_take n s) = false.
Proof.
  revert s. induction n as [|n IH]; intros [|a s]; simpl; try done.
  intros H. apply orb_false_iff in H as [Ha Hs]. by rewrite Ha, IH.
Qed.

Lemma split_on_without c (s : string) :
  has_char c s = false -> split_on c s = [s].
Proof.
  induction s as [|a s IH]; simpl; [done |].
  intros H. apply orb_false_iff in H as [Ha Hs].
  by rewrite Ha, IH.
Qed.

(** The output directory as a path, and the text of its frame files. *)
Lemma output_dir_path self w :
  has_char "/" (name (video_path self)) = false ->
  has_char "/" (cap_fps (capture_of self w)) = false ->
  output_dir self w =
    mkPath "" [("frames_" ++ stem (video_path self) ++ "_" ++
                cap_fps (capture_of self w))%string] /\
  forall i : Z,
    str (joinpath (output_dir self w) (pretty i ++ ".jpeg")%string) =
    ("frames_" ++ stem (video_path self) ++ "_" ++ cap_fps (capture_of self w) ++
     "/" ++ pretty i ++ ".jpeg")%string.
Proof.
  intros Hname Hfps.
  assert (Hstem : has_char "/" (stem (video_path self)) = false).
  { unfold stem, name_stem. destruct (suffix_index _); [| done].
    by apply has_char_str_take. }
  assert (Hdir : output_dir self w =
    mkPath "" [("frames_" ++ stem (video_path self) ++ "_" ++
                cap_fps (capture_of self w))%string]).
  { unfold output_dir, Path_of_str.
    rewrite split_on_without.
    - reflexivity.
    - change ("frames_" ++ stem (video_path self) ++ "_" ++
              cap_fps (capture_of self w))%string
        with ("frames_" ++ (stem (video_path self) ++ ("_" ++
              cap_fps (capture_of self w))))%string.
      rewrite !has_char_app, Hstem, Hfps. reflexivity. }
  split; [exact Hdir |].
  intros i. rewrite Hdir. unfold str, joinpath. cbn [root parts app join].
  by rewrite !str_app_assoc.
Qed.

(** Parsing a text never leaves a "/" inside a component, so the first
    hypothesis below holds for every path built from a string. *)
Lemma split_on_clean c (s : string) :
  Forall (fun x => has_char c x = false) (split_on c s).
Proof.
  induction s as [|a s IH]; simpl.
  - by constructor.
  - destruct (Ascii.eqb a c) eqn:E.
    + by constructor.
    + destruct (split_on c s) as [|x xs]; [by constructor; [simpl; rewrite E |] |].
      inversion IH as [|? ? Hx Hxs]; subst.
      constructor; [simpl; by rewrite E, Hx | done].
Qed.

Lemma Path_of_str_name_clean (s : string) :
  has_char "/" (name (Path_of_str s)) = false.
Proof.
  unfold name, Path_of_str. cbn [parts].
  assert (H : Forall (fun x => has_char "/" x = false)
                (filter (fun x => Is_true (keep_part x)) (split_on "/" s))).
  { apply Forall_forall. intros x Hx. apply list_elem_of_filter in Hx as [_ Hx].
    pose proof (split_on_clean "/" s) as Hall.
    rewrite Forall_forall in Hall. by apply Hall. }
  induction H as [|x l Hx Hl IH]; [done |].
  destruct l; [exact Hx | exact IH].
Qed.

(** X8. The frames go into the current working directory, wherever the video
    lies: for a video whose file name has no "/" (as every parsed path has)
    and an fps text without one, a completed run of [extract_frames] has
    asked for the one directory [frames_<stem>_<fps>], a relative path of
    one component, which is a directory of the store afterwards; and frame
    [i] was handed to [cv2.imwrite] under [frames_<stem>_<fps>/<i>.jpeg]. *)
Theorem extract_frames_writes_into_cwd self k w w' v :
  has_char "/" (name (video_path self)) = false ->
  has_char "/" (cap_fps (capture_of self w)) = false ->
  extract_frames self k w = (w', Ok v) ->
  let d := ("frames_" ++ stem (video_path self) ++ "_" ++
            cap_fps (capture_of self w))%string in
  exists t,
    w_trace w' = w_trace w ++ t /\
    List.filter (fun e => match e with EvMkdir _ => true | _ => false end) t =
      [EvMkdir d] /\
    imwrites t =
      map (fun p => ((d ++ "/" ++ pretty (fst p) ++ ".jpeg")%string, snd p))
          (sampled k (delivered (capture_of self w))) /\
    w_fs w' !! d = Some Dir.
Proof.
  intros Hname Hfps Hrun d.
  destruct (output_dir_path self w Hname Hfps) as [Hdir Hfile].
  fold d in Hdir.
  apply extract_frames_ok in Hrun as (_ & l & Hbody).
  assert (Hk : k <> 0) by (by apply extract_frames_body_ok in Hbody as (? & _)).
  rewrite (extract_frames_body_unfold self k w Hk) in Hbody.
  destruct (mkdir_each _ _ _) as [wm [[]|e]] eqn:Hmk; [| done].
  pose proof (mkdir_each_inv _ _ _ _ _ Hmk) as (_ & Ht & _).
  pose proof (mkdir_each_made _ _ _ _ Hmk) as Hmade.
  cbn [w_trace] in Ht. injection Hbody as <- _. cbn [w_trace w_fs].
  assert (Hstr : str (output_dir self w) = d) by (by rewrite Hdir).
  assert (Hin : [d] ∈ prefixes_from [] (parts (output_dir self w))).
  { rewrite Hdir. cbn. apply elem_of_cons. by left. }
  assert (Hkey : str (mkPath (root (output_dir self w)) [d]) = d)
    by (by rewrite Hdir).
  exists ([EvOpen (str (video_path self)); EvMkdir d;
           EvPbar (cap_frame_count (capture_of self w) / k)] ++
          loop_events (writes (output_dir self w)
                         (sampled k (delivered (capture_of self w)))) ++
          [EvRelease; EvPbarClose]).
  split; [| split; [| split]].
  - rewrite Ht, Hstr. by rewrite <- !app_assoc.
  - rewrite !List.filter_app.
    assert (Hnone : forall ws,
              List.filter (fun e => match e with EvMkdir _ => true | _ => false end)
                (loop_events ws) = []).
    { induction ws as [|[f img] ws IH]; [done | exact IH]. }
    rewrite Hnone. reflexivity.
  - rewrite !imwrites_app, imwrites_loop_events. simpl. rewrite app_nil_r.
    unfold writes. apply map_ext. intros [i f]. cbn [fst snd].
    unfold frame_file. rewrite Hfile. subst d.
    by rewrite !str_app_assoc.
  - rewrite store_all_keeps.
    + rewrite <- Hkey. by apply Hmade.
    + intros Hw. apply list_elem_of_fmap in Hw as ([f img] & Hf & Hw).
      apply elem_of_writes in Hw as (i & Hi & _). cbn [fst] in Hf.
      rewrite Hi in Hf. unfold frame_file in Hf. rewrite <- Hkey in Hf.
      exact (prefix_is_no_frame_file _ [d] _ Hin Hf).
Qed.

Lemma extract_frames_writes_into_cwd_witness :
  exists w',
    extract_frames (mkFrameExtractor (Path_of_str "/srv/videos/day1/clip.mp4")) 3
      example_world = (w', Ok PyNone) /\
    map fst (imwrites (w_trace w')) =
      ["frames_clip_30.0/0.jpeg"; "frames_clip_30.0/3.jpeg";
       "frames_clip_30.0/6.jpeg"; "frames_clip_30.0/9.jpeg"]%string /\
    w_fs w' !! "frames_clip_30.0"%string = Some Dir.
Proof.
  assert (H : extract_frames
                (mkFrameExtractor (Path_of_str "/srv/videos/day1/clip.mp4")) 3
                example_world =
              ((extract_frames
                  (mkFrameExtractor (Path_of_str "/srv/videos/day1/clip.mp4")) 3
                  example_world).1, Ok PyNone))
    by (vm_compute; reflexivity).
  destruct (extract_frames_writes_into_cwd
              (mkFrameExtractor (Path_of_str "/srv/videos/day1/clip.mp4")) 3
              example_world _ PyNone
              ltac:(reflexivity) ltac:(reflexivity) H) as (t & Ht & _ & Hw & Hd).
  eexists. split; [exact H |]. split; [| exact Hd].
  rewrite Ht, imwrites_app, Hw. reflexivity.
Defined.

(** X17. No two frames of one run go to the same file: the paths handed to
    [cv2.imwrite] during a completed run are pairwise different. *)
Theorem extract_frames_never_overwrites_its_frames self k w w' v :
  extract_frames self k w = (w', Ok v) ->
  exists t,
    w_trace w' = w_trace w ++ t /\
    NoDup (map fst (imwrites t)) /\
    length (imwrites t) = length (sampled k (delivered (capture_of self w))).
Proof.
  intros Hrun. apply extract_frames_ok in Hrun as (_ & l & Hbody).
  apply extract_frames_body_ok in Hbody as (_ & fs1 & _ & -> & _).
  cbn [w_trace]. eexists. split; [reflexivity |].
  rewrite !imwrites_app, imwrites_loop_events. simpl. rewrite app_nil_r.
  split.
  - apply writes_files, sampled_from_indices.
  - unfold writes. by rewrite length_map.
Qed.

Lemma extract_frames_never_overwrites_its_frames_witness :
  exists t,
    w_trace (extract_frames example_extractor 3 example_world).1 = [] ++ t /\
    NoDup (map fst (imwrites t)) /\ length (imwrites t) = 4%nat.
Proof.
  assert (H : extract_frames example_extractor 3 example_world =
              ((extract_frames example_extractor 3 example_world).1, Ok PyNone))
    by (vm_compute; reflexivity).
  destruct (extract_frames_never_overwrites_its_frames _ _ _ _ _ H)
    as (t & Ht & Hnd & Hlen).
  exists t. split; [exact Ht |]. split; [exact Hnd | exact Hlen].
Defined.

End extractor_more.

(** * Further properties of converter.py *)

Section converter_more.
Import pathlib converter.
Local Open Scope list_scope.

(** ** Construction *)

Lemma get_metadata_inv ip w w1 raw :
  get_metadata ip w = (w1, Ok raw) ->
  w_probe w (str ip) = Ok raw /\
  w1 = mkWorld (w_probe w) (w_transcode w) (w_fs w) (w_trace w ++ [EvProbe (str ip)]).
Proof.
  unfold get_metadata, bind, log. cbn [w_probe].
  destruct (w_probe w (str ip)) as [v | e].
  - by intros [= <- <-].
  - destruct e; try done.
    unfold lift, decode_stderr, print, log, raise.
    destruct stderr as [bytes|]; [destruct (utf8_valid bytes) |]; done.
Qed.

(** What [__init__] returns: the probe of the input path, and its
    simplification. *)
Lemma VideoConverter_init_inv ip w w1 self :
  VideoConverter_init ip w = (w1, Ok self) ->
  input_path self = ip /\
  w_probe w (str ip) = Ok (probe_raw self) /\
  get_simplified_probe (probe_raw self) = Ok (probe self) /\
  w1 = mkWorld (w_probe w) (w_transcode w) (w_fs w) (w_trace w ++ [EvProbe (str ip)]).
Proof.
  unfold VideoConverter_init. intros H.
  apply bind_ok_inv in H as (w2 & raw & Hmeta & H).
  apply bind_ok_inv in H as (w3 & p & Hp & H).
  apply lift_ok_inv in Hp as [Hp ->].
  unfold ret in H. injection H as <- <-.
  apply get_metadata_inv in Hmeta as [Hprobe ->]. done.
Qed.

(** X9. On every converter that [__init__] has returned, [validate_file]
    raises [KeyError] for [format], in whatever state it is called: it never
    returns [True] or [False] and prints nothing. *)
Theorem validate_file_raises_after_init ip w w1 self w2 :
  VideoConverter_init ip w = (w1, Ok self) ->
  validate_file self w2 = (w2, Raise (KeyError "format")).
Proof.
  intros H. apply VideoConverter_init_inv in H as (_ & _ & Hp & _).
  destruct self as [ip' raw p]. cbn [probe probe_raw] in Hp.
  by apply validate_file_raises_on_simplified.
Qed.

Lemma validate_file_raises_after_init_witness :
  exists w1 self,
    VideoConverter_init (Path_of_str "clip.mp4") example_world = (w1, Ok self) /\
    validate_file self w1 = (w1, Raise (KeyError "format")).
Proof.
  eexists. eexists.
  assert (H : VideoConverter_init (Path_of_str "clip.mp4") example_world =
              ((VideoConverter_init (Path_of_str "clip.mp4") example_world).1,
               Ok (example_converter "clip.mp4"))) by (vm_compute; reflexivity).
  split; [exact H |].
  exact (validate_file_raises_after_init _ _ _ _ _ H).
Defined.

(** X10. A file for which ffprobe reports no format tags cannot be
    constructed: when the probed document has a format section with
    [filename], [duration], [size] and [bit_rate] but without [tags],
    [__init__] raises [KeyError] for [tags] after the one probe. *)
Theorem VideoConverter_init_needs_tags ip w raw fmt :
  w_probe w (str ip) = Ok raw ->
  py.getitem raw "format" = Ok (PyDict fmt) ->
  is_Some (py.assoc "filename" fmt) ->
  is_Some (py.assoc "duration" fmt) ->
  is_Some (py.assoc "size" fmt) ->
  is_Some (py.assoc "bit_rate" fmt) ->
  py.assoc "tags" fmt = None ->
  VideoConverter_init ip w =
    (mkWorld (w_probe w) (w_transcode w) (w_fs w) (w_trace w ++ [EvProbe (str ip)]),
     Raise (KeyError "tags")).
Proof.
  intros Hprobe Hfmt [v1 H1] [v2 H2] [v3 H3] [v4 H4] Htags.
  unfold VideoConverter_init, get_metadata, bind, log, lift.
  cbn [w_probe]. rewrite Hprobe.
  unfold get_simplified_probe. rewrite Hfmt. cbn [rbind].
  rewrite !getitem_dict, H1, H2, H3, H4, Htags. reflexivity.
Qed.

Lemma VideoConverter_init_needs_tags_witness :
  (VideoConverter_init (Path_of_str "clip.mp4")
     (mkWorld (fun _ => Ok untagged_raw) (fun _ _ _ => (None, None)) ∅ [])).2 =
  Raise (KeyError "tags").
Proof.
  rewrite (VideoConverter_init_needs_tags (Path_of_str "clip.mp4")
             (mkWorld (fun _ => Ok untagged_raw) (fun _ _ _ => (None, None)) ∅ [])
             untagged_raw format_fields eq_refl eq_refl
             ltac:(by eexists) ltac:(by eexists) ltac:(by eexists) ltac:(by eexists)
             eq_refl).
  reflexivity.
Defined.

(** X18. When the probe of the input path fails with an ffmpeg error, no
    converter is built and the file was probed once.  If the error's stderr
    decodes as UTF-8, [__init__] prints the decoded text and raises the same
    error.  If it does not decode, the handler itself fails at
    [e.stderr.decode()]: nothing is printed and the exception that leaves
    [__init__] is the decoding error ([UnicodeDecodeError] for bytes that
    are not UTF-8, [AttributeError] for an error without stderr), not the
    ffmpeg error. *)
Theorem VideoConverter_init_probe_failure ip w stderr :
  w_probe w (str ip) = Raise (FfmpegError stderr) ->
  (forall text, decode_stderr stderr = Ok text ->
     VideoConverter_init ip w =
       (mkWorld (w_probe w) (w_transcode w) (w_fs w)
          (w_trace w ++
           [EvProbe (str ip);
            EvPrint [Text "Error during fetching metadata: "; Text text]]),
        Raise (FfmpegError stderr))) /\
  (forall e, decode_stderr stderr = Raise e ->
     VideoConverter_init ip w =
       (mkWorld (w_probe w) (w_transcode w) (w_fs w)
          (w_trace w ++ [EvProbe (str ip)]),
        Raise e) /\
     (e = UnicodeDecodeError \/ e = AttributeError)).
Proof.
  intros H. split.
  - intros text Hd.
    unfold VideoConverter_init, get_metadata, bind, log, print, raise, lift.
    cbn [w_probe w_transcode w_fs w_trace]. rewrite H, Hd. cbn.
    by rewrite <- app_assoc.
  - intros e Hd. split.
    + unfold VideoConverter_init, get_metadata, bind, log, print, raise, lift.
      cbn [w_probe w_transcode w_fs w_trace]. by rewrite H, Hd.
    + unfold decode_stderr in Hd.
      destruct stderr as [bytes|]; [destruct (utf8_valid bytes) |];
        injection Hd as <- || discriminate Hd; auto.
Qed.

Lemma VideoConverter_init_probe_failure_witness :
  (VideoConverter_init (Path_of_str "broken.mp4") failing_world).2 =
    Raise (FfmpegError (Some "moov atom not found"%string)) /\
  VideoConverter_init (Path_of_str "broken.mp4") undecodable_world =
    (mkWorld (w_probe undecodable_world) (w_transcode undecodable_world) ∅
       [EvProbe "broken.mp4"],
     Raise UnicodeDecodeError).
Proof.
  split.
  - destruct (VideoConverter_init_probe_failure (Path_of_str "broken.mp4")
               failing_world (Some "moov atom not found"%string) eq_refl)
      as (Hok & _).
    rewrite (Hok "moov atom not found"%string eq_refl). reflexivity.
  - destruct (VideoConverter_init_probe_failure (Path_of_str "broken.mp4")
               undecodable_world (Some latin1_stderr) eq_refl)
      as (_ & Hbad).
    destruct (Hbad UnicodeDecodeError eq_refl) as [Hrun _].
    exact Hrun.
Defined.

(** ** Printing the metadata of a probed file *)

Lemma get_simplified_probe_shaped raw fmt tags ss filename duration size bit_rate :
  py.getitem raw "format" = Ok (PyDict fmt) ->
  py.assoc "filename" fmt = Some filename ->
  py.assoc "duration" fmt = Some duration ->
  py.assoc "size" fmt = Some size ->
  py.assoc "bit_rate" fmt = Some bit_rate ->
  py.assoc "tags" fmt = Some (PyDict tags) ->
  py.getitem raw "streams" = Ok (PyList (map PyDict ss)) ->
  get_simplified_probe raw =
    Ok (PyDict [("filename", filename); ("duration", duration);
                ("size", size); ("bit_rate", bit_rate);
                ("creation_time", field tags "creation_time");
                ("streams", PyList (map simplified_stream ss))]).
Proof.
  intros Hfmt Hfile Hdur Hsize Hrate Htags Hstreams.
  pose proof (get_or_none_dict tags "creation_time") as Hct.
  unfold py.get_or_none in Hct.
  unfold get_simplified_probe. rewrite Hfmt, Hstreams. cbn [rbind].
  rewrite !getitem_dict, Hfile, Hdur, Hsize, Hrate, Htags. cbn [rbind].
  unfold rbind at 1 in Hct.
  destruct (py.contains "creation_time" (PyDict tags)) as [[|]|] eqn:Hc;
    try discriminate Hct; cbn [rbind].
  - rewrite Hct. cbn [py.iter rbind]. by rewrite new_streams_dicts.
  - injection Hct as <-. cbn [py.iter rbind]. by rewrite new_streams_dicts.
Qed.

(** X11. For a converter whose probe is the simplification of a document
    with a complete format section and a first stream that has [width] and
    [height], [print_metadata] prints four lines and returns: the duration,
    the first stream's [r_frame_rate] ([None] when it has none), its
    dimensions, and the creation time from the tags, with [Unknown] in its
    place when the tags have none or an empty one. *)
Theorem print_metadata_prints self fmt tags s0 rest
    filename duration size bit_rate width height w :
  get_simplified_probe (probe_raw self) = Ok (probe self) ->
  py.getitem (probe_raw self) "format" = Ok (PyDict fmt) ->
  py.assoc "filename" fmt = Some filename ->
  py.assoc "duration" fmt = Some duration ->
  py.assoc "size" fmt = Some size ->
  py.assoc "bit_rate" fmt = Some bit_rate ->
  py.assoc "tags" fmt = Some (PyDict tags) ->
  py.getitem (probe_raw self) "streams" = Ok (PyList (map PyDict (s0 :: rest))) ->
  py.assoc "width" s0 = Some width ->
  py.assoc "height" s0 = Some height ->
  print_metadata self w =
    (mkWorld (w_probe w) (w_transcode w) (w_fs w)
       (w_trace w ++
        [EvPrint [Text "Video duration: "; Fmt duration];
         EvPrint [Text "Video framerate: "; Fmt (field s0 "r_frame_rate")];
         EvPrint [Text "Video dimensions: "; Fmt width; Text "x"; Fmt height];
         EvPrint [Text "Video creation time: ";
                  Fmt (if py.truthy (field tags "creation_time")
                       then field tags "creation_time"
                       else PyStr "Unknown")]]),
     Ok tt).
Proof.
  intros Hp Hfmt Hfile Hdur Hsize Hrate Htags Hstreams Hw Hh.
  rewrite (get_simplified_probe_shaped _ _ _ _ _ _ _ _
             Hfmt Hfile Hdur Hsize Hrate Htags Hstreams) in Hp.
  injection Hp as Hp.
  unfold print_metadata. rewrite <- Hp.
  unfold simplified_stream, entry_if_present. cbn [map]. rewrite Hw, Hh.
  unfold bind, lift, print, log, ret. cbn.
  destruct (py.truthy (field tags "creation_time")); cbn;
    by rewrite <- !app_assoc.
Qed.

Lemma print_metadata_prints_witness :
  w_trace (print_metadata (example_converter "clip.mp4") example_world).1 =
    [EvPrint [Text "Video duration: "; Fmt (PyStr "10.000000")];
     EvPrint [Text "Video framerate: "; Fmt (PyStr "30/1")];
     EvPrint [Text "Video dimensions: "; Fmt (PyInt 1920); Text "x"; Fmt (PyInt 1080)];
     EvPrint [Text "Video creation time: "; Fmt (PyStr "Unknown")]].
Proof.
  rewrite (print_metadata_prints (example_converter "clip.mp4") _ _
             video_stream [audio_stream] _ _ _ _ _ _ example_world
             eq_refl eq_refl eq_refl eq_refl eq_refl eq_refl eq_refl eq_refl
             eq_refl eq_refl).
  reflexivity.
Defined.

(** X12. For a converter whose probe is the simplification of a document
    with a complete format section and no stream at all, [print_metadata]
    prints the duration line and then raises [IndexError]. *)
Theorem print_metadata_without_streams self fmt tags
    filename duration size bit_rate w :
  get_simplified_probe (probe_raw self) = Ok (probe self) ->
  py.getitem (probe_raw self) "format" = Ok (PyDict fmt) ->
  py.assoc "filename" fmt = Some filename ->
  py.assoc "duration" fmt = Some duration ->
  py.assoc "size" fmt = Some size ->
  py.assoc "bit_rate" fmt = Some bit_rate ->
  py.assoc "tags" fmt = Some (PyDict tags) ->
  py.getitem (probe_raw self) "streams" = Ok (PyList []) ->
  print_metadata self w =
    (mkWorld (w_probe w) (w_transcode w) (w_fs w)
       (w_trace w ++ [EvPrint [Text "Video duration: "; Fmt duration]]),
     Raise IndexError).
Proof.
  intros Hp Hfmt Hfile Hdur Hsize Hrate Htags Hstreams.
  rewrite (get_simplified_probe_shaped _ _ _ [] _ _ _ _
             Hfmt Hfile Hdur Hsize Hrate Htags Hstreams) in Hp.
  injection Hp as Hp.
  unfold print_metadata. rewrite <- Hp. reflexivity.
Qed.

Lemma print_metadata_without_streams_witness :
  print_metadata streamless_converter example_world =
    (mkWorld (w_probe example_world) (w_transcode example_world) ∅
       [EvPrint [Text "Video duration: "; Fmt (PyStr "10.000000")]],
     Raise IndexError).
Proof.
  rewrite (print_metadata_without_streams streamless_converter _ _ _ _ _ _
             example_world eq_refl eq_refl eq_refl eq_refl eq_refl eq_refl
             eq_refl eq_refl).
  reflexivity.
Defined.

(** X13. In a simplified probe every stream record is a mapping that has the
    seven keys [codec_name], [codec_type], [duration], [bit_rate],
    [frame_rate], [color_space] and [color_range], whatever the raw record
    had; there are as many records as raw streams. *)
Theorem simplified_streams_have_fields raw p :
  get_simplified_probe raw = Ok p ->
  exists raw_streams items streams,
    py.getitem raw "streams" = Ok raw_streams /\
    py.iter raw_streams = Ok items /\
    py.getitem p "streams" = Ok (PyList streams) /\
    length streams = length items /\
    Forall (fun s =>
              forall k,
                k ∈ ["codec_name"; "codec_type"; "duration"; "bit_rate";
                     "frame_rate"; "color_space"; "color_range"]%string ->
                is_ok (py.getitem s k) = true) streams.
Proof.
  assert (Hone : forall s v, new_stream s = Ok v ->
            forall k,
              k ∈ ["codec_name"; "codec_type"; "duration"; "bit_rate";
                   "frame_rate"; "color_space"; "color_range"]%string ->
              is_ok (py.getitem v k) = true).
  { intros s v Hs k Hk. unfold new_stream in Hs.
    do 7 (apply rbind_ok_inv in Hs as (? & _ & Hs)).
    apply rbind_ok_inv in Hs as (has_width & _ & Hs).
    apply rbind_ok_inv in Hs as (items1 & H1 & Hs).
    apply rbind_ok_inv in Hs as (has_height & _ & Hs).
    apply rbind_ok_inv in Hs as (items2 & H2 & Hs).
    injection Hs as <-.
    destruct has_width.
    - apply rbind_ok_inv in H1 as (width & _ & H1). injection H1 as <-.
      destruct has_height.
      + apply rbind_ok_inv in H2 as (height & _ & H2). injection H2 as <-.
        repeat (apply elem_of_cons in Hk as [-> | Hk]; [reflexivity |]).
        by apply elem_of_nil in Hk.
      + injection H2 as <-.
        repeat (apply elem_of_cons in Hk as [-> | Hk]; [reflexivity |]).
        by apply elem_of_nil in Hk.
    - injection H1 as <-. destruct has_height.
      + apply rbind_ok_inv in H2 as (height & _ & H2). injection H2 as <-.
        repeat (apply elem_of_cons in Hk as [-> | Hk]; [reflexivity |]).
        by apply elem_of_nil in Hk.
      + injection H2 as <-.
        repeat (apply elem_of_cons in Hk as [-> | Hk]; [reflexivity |]).
        by apply elem_of_nil in Hk. }
  assert (Hall : forall l out, new_streams l = Ok out ->
            length out = length l /\
            Forall (fun s =>
              forall k,
                k ∈ ["codec_name"; "codec_type"; "duration"; "bit_rate";
                     "frame_rate"; "color_space"; "color_range"]%string ->
                is_ok (py.getitem s k) = true) out).
  { induction l as [|s l IH]; intros out Hout; simpl in Hout.
    - injection Hout as <-. by split.
    - apply rbind_ok_inv in Hout as (v & Hv & Hout).
      apply rbind_ok_inv in Hout as (vs & Hvs & Hout).
      injection Hout as <-. destruct (IH _ Hvs) as [Hlen Hfa].
      split; [simpl; by rewrite Hlen |].
      constructor; [by apply (Hone s) | done]. }
  unfold get_simplified_probe. intros H.
  do 5 (apply rbind_ok_inv in H as (? & _ & H)).
  apply rbind_ok_inv in H as (raw_streams & Hraw & H).
  apply rbind_ok_inv in H as (items & Hitems & H).
  apply rbind_ok_inv in H as (streams & Hstreams & H).
  injection H as <-.
  exists raw_streams, items, streams.
  destruct (Hall _ _ Hstreams) as [Hlen Hfa]. by repeat split.
Qed.

Lemma simplified_streams_have_fields_witness :
  exists streams,
    py.getitem (probe (example_converter "clip.mp4")) "streams" = Ok (PyList streams) /\
    length streams = 2%nat.
Proof.
  destruct (simplified_streams_have_fields example_raw
              (probe (example_converter "clip.mp4")) eq_refl)
    as (raw_streams & items & streams & Hraw & Hitems & Hs & Hlen & _).
  exists streams. split; [exact Hs |].
  injection Hraw as <-. injection Hitems as <-. exact Hlen.
Defined.

(** ** Transcoding *)

(** X14. When the resolved output path has another suffix than the input,
    [convert] runs the transcoder once, on the input path, the resolved path
    and the format as given, and there is no second attempt.  On success it
    prints the success line and returns [None].  On failure the diagnostic
    is lost: [ffmpeg.run] was called without capturing stderr, so the error
    carries none, the handler fails at [e.stderr.decode()] before it prints,
    and what leaves [convert] is [AttributeError], not the ffmpeg error. *)
Theorem convert_transcodes_once self output_format output_path out w written failure :
  resolve_output_path self output_format output_path = Ok out ->
  suffix (input_path self) <> suffix out ->
  w_transcode w (str (input_path self)) (str out) output_format = (written, failure) ->
  convert self output_format output_path w =
    (mkWorld (w_probe w) (w_transcode w)
       (match written with
        | Some bytes => <[str out := bytes]> (w_fs w)
        | None => w_fs w
        end)
       (w_trace w ++
        EvRun (str (input_path self)) (str out) output_format ::
        match failure with
        | Some _ => []
        | None => [EvPrint [Text "Successfully converted ";
                            Text (str (input_path self)); Text " to ";
                            Text (str out)]]
        end),
     match failure with
     | Some _ => Raise AttributeError
     | None => Ok PyNone
     end).
Proof.
  intros Hres Hdiff Hrun.
  unfold convert, bind at 1, lift. rewrite Hres.
  apply String.eqb_neq in Hdiff. rewrite Hdiff.
  unfold ffmpeg_run, bind, log. cbn [w_transcode w_fs w_trace w_probe].
  rewrite Hrun.
  destruct failure as [stderr|];
    unfold print, log, bind, raise, ret, lift, decode_stderr;
    cbn [fst w_trace w_probe w_transcode w_fs]; [done |].
  by rewrite <- app_assoc.
Qed.

Lemma convert_transcodes_once_witness :
  convert (example_converter "clip.mov") "mp4" None transcoding_world =
    (mkWorld (w_probe transcoding_world) (w_transcode transcoding_world)
       {[ "clip.mp4"%string := [Byte.x00; Byte.x00; Byte.x00; Byte.x18] ]}
       [EvRun "clip.mov" "clip.mp4" "mp4";
        EvPrint [Text "Successfully converted "; Text "clip.mov"; Text " to ";
                 Text "clip.mp4"]],
     Ok PyNone) /\
  convert (example_converter "clip.mov") "mp4" (Some (inl "out/final.avi"))
     failing_world =
    (mkWorld (w_probe failing_world) (w_transcode failing_world) ∅
       [EvRun "clip.mov" "out/final.avi" "mp4"],
     Raise AttributeError).
Proof.
  split.
  - rewrite (convert_transcodes_once (example_converter "clip.mov") "mp4" None
               (Path_of_str "clip.mp4") transcoding_world _ _
               eq_refl ltac:(discriminate) eq_refl).
    reflexivity.
  - rewrite (convert_transcodes_once (example_converter "clip.mov") "mp4"
               (Some (inl "out/final.avi"%string))
               (Path_of_str "out/final.avi") failing_world _ _
               eq_refl ltac:(discriminate) eq_refl).
    reflexivity.
Defined.

Lemma name_suffix_empty nm : name_suffix nm = ""%string -> name_stem nm = nm.
Proof.
  unfold name_suffix, name_stem.
  destruct (suffix_index nm) as [i|] eqn:E; [| done].
  intros H. apply suffix_index_bounds in E.
  apply (f_equal String.length) in H. rewrite str_drop_length in H.
  simpl in H. lia.
Qed.

Lemma with_suffix_any p ext :
  name p <> ""%string -> ext <> ""%string -> has_char "/" ext = false ->
  with_suffix p (String "." ext) =
    Ok (mkPath (root p) (removelast (parts p) ++ [(stem p ++ String "." ext)%string])).
Proof.
  intros Hname Hext Hsep.
  destruct (String.eqb_spec (suffix p) "") as [E | E].
  - unfold with_suffix.
    assert (Hs : has_char "/" (String "." ext) = false) by (simpl; exact Hsep).
    rewrite Hs. simpl String.prefix. simpl negb.
    replace (String.prefix "" ext) with true by (by destruct ext).
    cbn [andb negb orb].
    assert (Hd : String.eqb (String "." ext) "." = false).
    { apply String.eqb_neq. intros [= E']. done. }
    rewrite Hd.
    apply String.eqb_neq in Hname. rewrite Hname.
    rewrite E. cbn [String.eqb].
    unfold stem. by rewrite name_suffix_empty.
  - by apply with_suffix_replaces.
Qed.

(** X15. With no explicit output path and a format that is not empty and has
    neither "/" nor ".", for any input path with a file name, the output
    path takes the input's stem and the format as suffix, and [convert] is
    cancelled exactly when the input has that very suffix: then no transcode
    is run, otherwise exactly one is, to that path. *)
Theorem convert_derived_cancels_iff self output_format w :
  name (input_path self) <> ""%string ->
  output_format <> ""%string ->
  has_char "/" output_format = false ->
  has_char "." output_format = false ->
  exists out,
    resolve_output_path self output_format None = Ok out /\
    name out = (stem (input_path self) ++ "." ++ output_format)%string /\
    suffix out = ("." ++ output_format)%string /\
    (suffix (input_path self) = ("." ++ output_format)%string ->
     List.filter is_run (w_trace (convert self output_format None w).1) =
       List.filter is_run (w_trace w)) /\
    (suffix (input_path self) <> ("." ++ output_format)%string ->
     List.filter is_run (w_trace (convert self output_format None w).1) =
       List.filter is_run (w_trace w) ++
       [EvRun (str (input_path self)) (str out) output_format]).
Proof.
  intros Hname Hfmt Hsep Hdot.
  pose proof (with_suffix_any (input_path self) output_format Hname Hfmt Hsep) as Hres.
  eexists. split; [exact Hres |].
  set (out := mkPath (root (input_path self))
                (removelast (parts (input_path self)) ++
                 [(stem (input_path self) ++ String "." output_format)%string])) in *.
  assert (Hn : name out = (stem (input_path self) ++ String "." output_format)%string).
  { unfold name, out. cbn [parts]. apply List.last_last. }
  assert (Hst : stem (input_path self) <> ""%string).
  { unfold stem. destruct (String.eqb_spec (name_suffix (name (input_path self))) "")
      as [E | E].
    - by rewrite name_suffix_empty.
    - by apply name_stem_nonempty. }
  assert (Hsuf : suffix out = String "." output_format).
  { unfold suffix. rewrite Hn. unfold name_suffix.
    rewrite suffix_index_replaced by done. apply str_drop_app. }
  split; [exact Hn |]. split; [exact Hsuf |].
  change ("." ++ output_format)%string with (String "." output_format).
  split; intros Hcmp.
  - unfold convert, bind at 1, lift, resolve_output_path.
    change ("." ++ output_format)%string with (String "." output_format).
    rewrite Hres, Hsuf, Hcmp, String.eqb_refl.
    unfold print, log, bind, ret. cbn [fst w_trace].
    rewrite List.filter_app. simpl. by rewrite app_nil_r.
  - unfold convert, bind at 1, lift, resolve_output_path.
    change ("." ++ output_format)%string with (String "." output_format).
    rewrite Hres, Hsuf. apply String.eqb_neq in Hcmp. rewrite Hcmp.
    unfold ffmpeg_run, bind, log. cbn [w_transcode w_fs w_trace w_probe].
    destruct (w_transcode w _ _ _) as [written [stderr|]];
      unfold print, log, bind, raise, ret, lift, decode_stderr; cbn [fst w_trace];
      rewrite !List.filter_app; simpl; by rewrite ?app_nil_r.
Qed.

Lemma convert_derived_cancels_iff_witness :
  List.filter is_run
    (w_trace (convert (example_converter "videos/clip") "mp4" None transcoding_world).1) =
  [EvRun "videos/clip" "videos/clip.mp4" "mp4"].
Proof.
  destruct (convert_derived_cancels_iff (example_converter "videos/clip") "mp4"
              transcoding_world ltac:(discriminate) ltac:(discriminate)
              eq_refl eq_refl) as (out & Hres & _ & _ & _ & Hrun).
  rewrite Hrun by discriminate. injection Hres as <-. reflexivity.
Defined.

(** ** Checking a result *)



End converter_more.
